(** * Support router and chain-of-thought workflow: a shallow embedding

    The two workflow graphs of the repository are built from a handful of
    node functions that read a state dictionary, possibly ask the language
    model one question, and return an update dictionary.  This file embeds
    those node functions ([agents.py], [chain_of_thought_agent.py]) and proves
    the routing and step-counting properties of the specification.

    Modelling conventions.
    - A Python [str] is a Rocq [string] holding its UTF-8 bytes.  Substring
      tests and splits on the ASCII patterns of the code are the same on
      bytes and on code points.  [lower], [strip] and [title] follow CPython
      on the ASCII range and leave every other byte alone: they are
      [str.lower], [str.strip] and [str.title] on ASCII text ([isascii]), and
      a theorem whose statement depends on what they return is stated for
      ASCII text.
    - A state or update dictionary is a record of optional fields: [None] is
      an absent key.
    - A node is a program of type [Prog]: it returns, raises, or invokes the
      language model and continues with the response. *)

From Stdlib Require Import String Ascii List ZArith Lia Bool DecimalString.
Import ListNotations.
Open Scope string_scope.

(** ** Python strings *)

Module Py.

(** The double quote and the line feed, which the prompt templates use. *)
Definition dq : string := String "034"%char EmptyString.
Definition nl : string := String "010"%char EmptyString.

(** [nl.join(ls)]: the templates are written line by line. *)
Definition lines (ls : list string) : string := String.concat nl ls.

(** [s[n:]] *)
Fixpoint drop (n : nat) (s : string) : string :=
  match n, s with
  | O, _ => s
  | S _, EmptyString => EmptyString
  | S n', String _ s' => drop n' s'
  end.

(** [sub in s] *)
Fixpoint contains (sub s : string) : bool :=
  prefix sub s ||
  match s with
  | EmptyString => false
  | String _ s' => contains sub s'
  end.

(** [s.partition(sep)], as an option: the text before and after the first
    occurrence of [sep], or [None] when [sep] does not occur. *)
Fixpoint partition (sep s : string) : option (string * string) :=
  if prefix sep s then Some (EmptyString, drop (String.length sep) s)
  else match s with
       | EmptyString => None
       | String c s' =>
           match partition sep s' with
           | Some (a, b) => Some (String c a, b)
           | None => None
           end
       end.

(** [s.split(sep, maxsplit)] for a non-empty [sep] (the code splits on the
    literals "|" and "**" only). *)
Fixpoint split (sep : string) (maxsplit : nat) (s : string) : list string :=
  match maxsplit with
  | O => [s]
  | S n =>
      match partition sep s with
      | None => [s]
      | Some (a, b) => a :: split sep n b
      end
  end.

Definition is_upper (c : ascii) : bool :=
  let n := nat_of_ascii c in (65 <=? n)%nat && (n <=? 90)%nat.

Definition is_lower (c : ascii) : bool :=
  let n := nat_of_ascii c in (97 <=? n)%nat && (n <=? 122)%nat.

Definition is_cased (c : ascii) : bool := is_upper c || is_lower c.

Definition lower_char (c : ascii) : ascii :=
  if is_upper c then ascii_of_nat (nat_of_ascii c + 32) else c.

Definition upper_char (c : ascii) : ascii :=
  if is_lower c then ascii_of_nat (nat_of_ascii c - 32) else c.

(** Whitespace of [str.strip()] in the ASCII range: tab to carriage return,
    the four separators 28..31 and the space. *)
Definition is_space (c : ascii) : bool :=
  let n := nat_of_ascii c in
  ((9 <=? n)%nat && (n <=? 13)%nat) || ((28 <=? n)%nat && (n <=? 32)%nat).

Fixpoint map_chars (f : ascii -> ascii) (s : string) : string :=
  match s with
  | EmptyString => EmptyString
  | String c s' => String (f c) (map_chars f s')
  end.

(** [s.lower()] on ASCII text.  Outside ASCII, [str.lower] also maps the
    Kelvin sign U+212A to k and U+0130 to i followed by U+0307, and
    lower-cases the other cased letters; this function leaves those bytes as
    they are. *)
Definition lower (s : string) : string := map_chars lower_char s.

(** [s.replace(old, new)] for one-character [old] and [new]. *)
Definition replace_char (old new : ascii) (s : string) : string :=
  map_chars (fun c => if Ascii.eqb c old then new else c) s.

Fixpoint lstrip (s : string) : string :=
  match s with
  | EmptyString => EmptyString
  | String c s' => if is_space c then lstrip s' else s
  end.

Fixpoint rstrip (s : string) : string :=
  match s with
  | EmptyString => EmptyString
  | String c s' =>
      match rstrip s' with
      | EmptyString => if is_space c then EmptyString else String c EmptyString
      | r => String c r
      end
  end.

(** [s.strip()] on ASCII text.  Outside ASCII, [str.strip] also removes
    U+0085, U+00A0 and the other Unicode spaces; this function keeps them.
    The two agree whenever the text this function returns is ASCII. *)
Definition strip (s : string) : string := rstrip (lstrip s).

(** [s.title()] on ASCII text: a cased character is upper-cased when the
    character before it is not cased, and lower-cased otherwise.  A byte
    outside ASCII counts as not cased here, where [str.title] knows the cased
    letters of Unicode. *)
Fixpoint title_from (previous_is_cased : bool) (s : string) : string :=
  match s with
  | EmptyString => EmptyString
  | String c s' =>
      String (if previous_is_cased then lower_char c else upper_char c)
             (title_from (is_cased c) s')
  end.

Definition title (s : string) : string := title_from false s.

(** [str(n)] for an int. *)
Definition str_of_int (n : Z) : string := NilZero.string_of_int (Z.to_int n).

(** [not s] for a string. *)
Definition is_empty (s : string) : bool :=
  match s with
  | EmptyString => true
  | String _ _ => false
  end.

(** [l[i]] with Python's negative indices, for an index that fits a machine
    index (from -2^63 to 2^63 - 1); [None] stands for the IndexError
    list index out of range.  An index outside that range raises an
    IndexError with another message in CPython, before the list is looked
    at. *)
Definition index {A : Type} (l : list A) (i : Z) : option A :=
  let n := Z.of_nat (List.length l) in
  if (0 <=? i)%Z then nth_error l (Z.to_nat i)
  else if (- n <=? i)%Z then nth_error l (Z.to_nat (n + i))
  else None.

(** [l[-1]] of a non-empty list; [None] on the empty list. *)
Fixpoint last_item {A : Type} (l : list A) : option A :=
  match l with
  | [] => None
  | [x] => Some x
  | _ :: l' => last_item l'
  end.

(** [l[-n:]] *)
Definition last_n {A : Type} (n : nat) (l : list A) : list A :=
  skipn (List.length l - n) l.

End Py.

(** [s.isascii()]: every character is below 128. *)
Definition ascii_char (c : ascii) : bool := (nat_of_ascii c <? 128)%nat.

Fixpoint isascii (s : string) : bool :=
  match s with
  | EmptyString => true
  | String c s' => ascii_char c && isascii s'
  end.

(** ** Messages, faults and node programs *)

(** The message classes of the orchestration library that the code builds or
    tests with [isinstance]. *)
Inductive Message : Type :=
| HumanMessage (content : string)
| AIMessage (content : string)
| SystemMessage (content : string)
| ToolMessage (content : string).

Definition content (m : Message) : string :=
  match m with
  | HumanMessage c | AIMessage c | SystemMessage c | ToolMessage c => c
  end.

Definition is_human (m : Message) : bool :=
  match m with HumanMessage _ => true | _ => false end.

Definition is_ai (m : Message) : bool :=
  match m with AIMessage _ => true | _ => false end.

Inductive Exn : Type :=
| ValueError (msg : string)
| KeyError (key : string)
| IndexError (msg : string)
| ExternalFault (msg : string).

(** What [llm.invoke] gives back: a response with a text content, or a fault
    of the external call. *)
Inductive Response : Type :=
| Content (text : string)
| Fault (e : Exn).

(** A node: a value, an exception, or one call of the language model followed
    by the rest of the node. *)
Inductive Prog (A : Type) : Type :=
| Ret (a : A)
| Raise (e : Exn)
| Invoke (prompt : list Message) (k : Response -> Prog A).

Arguments Ret {A} a.
Arguments Raise {A} e.
Arguments Invoke {A} prompt k.

Fixpoint bind {A B : Type} (p : Prog A) (f : A -> Prog B) : Prog B :=
  match p with
  | Ret a => f a
  | Raise e => Raise e
  | Invoke q k => Invoke q (fun r => bind (k r) f)
  end.

Notation "x <- p ;; q" := (bind p (fun x => q))
  (at level 61, p at next level, right associativity).

(** [llm.invoke(prompt).content]; no node catches a fault of the call. *)
Definition invoke (prompt : list Message) : Prog string :=
  Invoke prompt (fun r =>
    match r with
    | Content text => Ret text
    | Fault e => Raise e
    end).

(** Running a node against a language model: the prompts sent, in order, and
    the outcome. *)
Fixpoint run {A : Type} (llm : list Message -> Response) (p : Prog A)
  : list (list Message) * (Exn + A) :=
  match p with
  | Ret a => ([], inr a)
  | Raise e => ([], inl e)
  | Invoke q k => let (t, o) := run llm (k (llm q)) in (q :: t, o)
  end.

(** The process environment read by [get_llm]. *)
Record Env : Type := mkEnv { OPENAI_API_KEY : option string }.

(** [get_llm()]: the model handle, or ValueError without a credential. *)
Definition get_llm (env : Env) : Prog unit :=
  match OPENAI_API_KEY env with
  | None => Raise (ValueError "Please set OPENAI_API_KEY environment variable")
  | Some api_key =>
      if Py.is_empty api_key
      then Raise (ValueError "Please set OPENAI_API_KEY environment variable")
      else Ret tt
  end.

(** [state[key]] *)
Definition getitem {A : Type} (key : string) (field : option A) : Prog A :=
  match field with
  | Some v => Ret v
  | None => Raise (KeyError key)
  end.

(** [state.get(key, default)] *)
Definition get {A : Type} (field : option A) (default : A) : A :=
  match field with
  | Some v => v
  | None => default
  end.

(** ** The reasoning workflow ([chain_of_thought_agent.py]) *)

Module ChainOfThought.

Import Py.

(** [ReasoningState]: the message list, the problem statement and the step
    counter.  The same shape serves for the update a node returns. *)
Record ReasoningState : Type := mkState {
  messages : option (list Message);
  current_problem : option string;
  step_count : option Z
}.

Definition greeting : string :=
  "Hello! I'm your Chain of Thought Reasoning Agent. I'll help you think through problems step by step. What would you like me to analyze?".

Definition reasoning_prompt (problem : string) : string :=
  lines [
    "🧠 **Starting Chain of Thought Analysis**";
    "";
    "I need to think through this problem step by step: " ++ dq ++ problem ++ dq;
    "";
    "Let me break this down systematically using a structured reasoning approach."
  ].

Definition reasoning_coordinator (state : ReasoningState) : Prog ReasoningState :=
  msgs <- getitem "messages" (messages state) ;;
  match msgs with
  | [] =>
      Ret {| messages := Some [AIMessage greeting];
             current_problem := None;
             step_count := None |}
  | _ :: _ =>
      match last_item msgs with
      | Some (HumanMessage text) =>
          Ret {| messages := Some (msgs ++ [AIMessage (reasoning_prompt text)])%list;
                 current_problem := Some text;
                 step_count := Some 0%Z |}
      | _ => Ret state
      end
  end.

Definition help_request : string :=
  "I need a problem to analyze. Please provide a question or issue you'd like me to think through.".

(** The four step templates, each a title and a prompt around the problem. *)
Definition step_prompts (current_problem : string) : list (string * string) :=
  [ ("Problem Analysis",
     lines [
       "Analyze this problem: " ++ dq ++ current_problem ++ dq;
       "";
       "Break down the problem into its key components:";
       "1. What is the core issue?";
       "2. What are the main factors involved?";
       "3. What context is important to consider?";
       "";
       "Provide a clear analysis of what we're dealing with."
     ]);
    ("Information Gathering",
     lines [
       "Based on the problem: " ++ dq ++ current_problem ++ dq;
       "";
       "What information do we need to make a good decision? Consider:";
       "1. What facts are relevant?";
       "2. What assumptions might we be making?";
       "3. What additional context would be helpful?";
       "4. What are the key constraints or requirements?";
       "";
       "Identify the most important information needed."
     ]);
    ("Option Generation",
     lines [
       "For the problem: " ++ dq ++ current_problem ++ dq;
       "";
       "Generate potential approaches or solutions:";
       "1. What are the different ways to address this?";
       "2. What are the main options available?";
       "3. Are there any creative or alternative approaches?";
       "4. What would be the conventional wisdom?";
       "";
       "List and briefly describe the main options."
     ]);
    ("Evaluation & Decision",
     lines [
       "Evaluate the options for: " ++ dq ++ current_problem ++ dq;
       "";
       "Analyze each approach considering:";
       "1. Pros and cons of each option";
       "2. Feasibility and practicality";
       "3. Potential risks and benefits";
       "4. Resource requirements";
       "5. Likelihood of success";
       "";
       "Make a reasoned recommendation based on this analysis."
     ])
  ].

Definition reasoner_system_prompt : string :=
  "You are a logical reasoning expert. Provide clear, structured thinking for each step.".

Definition step_message (step_count : Z) (title response : string) : string :=
  lines [
    "🔍 **Step " ++ str_of_int (step_count + 1) ++ ": " ++ title ++ "**";
    "";
    response
  ].

Definition step_by_step_reasoner (env : Env) (state : ReasoningState)
  : Prog ReasoningState :=
  _ <- get_llm env ;;
  let problem := get (current_problem state) "" in
  let count := get (step_count state) 0%Z in
  if is_empty problem then
    msgs <- getitem "messages" (messages state) ;;
    Ret {| messages := Some (msgs ++ [AIMessage help_request])%list;
           current_problem := None;
           step_count := Some count |}
  else
    let prompts := step_prompts problem in
    if (count <? Z.of_nat (List.length prompts))%Z then
      match index prompts count with
      | None => Raise (IndexError "list index out of range")
      | Some (title, prompt) =>
          response <- invoke [SystemMessage reasoner_system_prompt;
                              HumanMessage prompt] ;;
          msgs <- getitem "messages" (messages state) ;;
          Ret {| messages :=
                   Some (msgs ++ [AIMessage (step_message count title response)])%list;
                 current_problem := Some problem;
                 step_count := Some (count + 1)%Z |}
      end
    else Ret state.

(** The step text of one message, when the message is step-shaped: an
    assistant message with "Step" and ":" in it whose content has a third
    part under [split("**", 2)]. *)
Definition step_text (msg : Message) : option string :=
  match msg with
  | AIMessage content =>
      if contains "Step" content && contains ":" content then
        if contains "**" content then
          match split "**" 2 content with
          | _ :: _ :: part :: _ => Some (strip part)
          | _ => None
          end
        else None
      else None
  | _ => None
  end.

(** The loop that fills [reasoning_steps]. *)
Fixpoint extract_steps (msgs : list Message) : list string :=
  match msgs with
  | [] => []
  | msg :: rest =>
      match step_text msg with
      | Some text => text :: extract_steps rest
      | None => extract_steps rest
      end
  end.

Definition blocking_message : string :=
  "I need more reasoning steps before I can provide a conclusion.".

Definition synthesis_prompt (current_problem : string)
  (reasoning_steps : list string) : string :=
  lines [
    "Based on the step-by-step analysis of: " ++ dq ++ current_problem ++ dq;
    "";
    "Here are the reasoning steps taken:";
    "1. Problem Analysis: " ++ nth 0 reasoning_steps "Not completed";
    "2. Information Gathering: " ++ nth 1 reasoning_steps "Not completed";
    "3. Option Generation: " ++ nth 2 reasoning_steps "Not completed";
    "4. Evaluation & Decision: " ++ nth 3 reasoning_steps "Not completed";
    "";
    "Provide a clear, actionable conclusion that:";
    "1. Summarizes the key insights from the analysis";
    "2. Gives a specific recommendation or answer";
    "3. Explains the reasoning behind the recommendation";
    "4. Acknowledges any limitations or assumptions";
    "5. Suggests next steps if applicable";
    "";
    "Make this practical and actionable."
  ].

Definition synthesizer_system_prompt : string :=
  "You are an expert at synthesizing logical reasoning into clear, actionable conclusions.".

Definition conclusion (response : string) : string :=
  lines [
    "🎯 **Final Conclusion & Recommendation**";
    "";
    response;
    "";
    "---";
    "";
    "**Reasoning Process Summary:**";
    "✅ **Step 1: Problem Analysis** - Identified core issues and key factors";
    "✅ **Step 2: Information Gathering** - Determined what information is needed";
    "✅ **Step 3: Option Generation** - Explored different approaches and solutions";
    "✅ **Step 4: Evaluation & Decision** - Analyzed pros/cons and made recommendations";
    "";
    "This systematic approach ensures thorough consideration of all aspects of your question."
  ].

Definition conclusion_synthesizer (env : Env) (state : ReasoningState)
  : Prog ReasoningState :=
  _ <- get_llm env ;;
  let problem := get (current_problem state) "" in
  let reasoning_steps := extract_steps (get (messages state) []) in
  if (List.length reasoning_steps <? 3)%nat then
    msgs <- getitem "messages" (messages state) ;;
    Ret {| messages := Some (msgs ++ [AIMessage blocking_message])%list;
           current_problem := None;
           step_count := Some (get (step_count state) 0%Z) |}
  else
    response <- invoke [SystemMessage synthesizer_system_prompt;
                        HumanMessage (synthesis_prompt problem reasoning_steps)] ;;
    msgs <- getitem "messages" (messages state) ;;
    Ret {| messages := Some (msgs ++ [AIMessage (conclusion response)])%list;
           current_problem := Some problem;
           step_count := Some (get (step_count state) 0%Z) |}.

Definition route_reasoning_flow (state : ReasoningState) : string :=
  let count := get (step_count state) 0%Z in
  if (count <? 4)%Z then "step_reasoner"
  else if (count >=? 4)%Z then "conclusion"
  else "end".

End ChainOfThought.

(** ** The support workflow ([agents.py]) *)

Module Agents.

Import Py.

(** [SupportState]; the same shape serves for the update a node returns. *)
Record SupportState : Type := mkState {
  messages : option (list Message);
  active_agent : option string;
  ticket_category : option string;
  customer_id : option string;
  next_agent : option string
}.

Definition greeting : string := "Hello! How can I help you today?".

(** The specialist named by a handoff announcement (lower-cased text). *)
Definition announced_agent (text : string) : option string :=
  if contains "technical agent" text then Some "technical_agent"
  else if contains "billing agent" text then Some "billing_agent"
  else if contains "general agent" text then Some "general_agent"
  else None.

(** The loop that looks for the last routing message: it stops at the first
    assistant message that carries the routing phrase. *)
Fixpoint last_routing (msgs : list Message) : option string :=
  match msgs with
  | [] => None
  | msg :: rest =>
      if is_ai msg && contains "routing your request to our" (lower (content msg))
      then announced_agent (lower (content msg))
      else last_routing rest
  end.

(** [current_active_agent] after the loop over [reversed(messages[:-1])]. *)
Definition current_active_agent (msgs : list Message) : option string :=
  last_routing (rev (removelast msgs)).

Definition billing_keywords : list string :=
  ["billing"; "payment"; "refund"; "charge"; "invoice"; "account balance"].

Definition technical_keywords : list string :=
  ["password"; "login"; "technical"; "api"; "connection"; "error"; "bug";
   "down"; "not working"].

Definition general_keywords : list string :=
  ["plan"; "upgrade"; "downgrade"; "account settings"; "general"].

(** [any(keyword in user_content for keyword in keywords)] *)
Definition any_keyword (keywords : list string) (user_content : string) : bool :=
  existsb (fun keyword => contains keyword user_content) keywords.

Fixpoint context_lines (msgs : list Message) : string :=
  match msgs with
  | [] => ""
  | msg :: rest =>
      match msg with
      | HumanMessage text => "User: " ++ text ++ nl
      | AIMessage text => "Assistant: " ++ text ++ nl
      | _ => ""
      end ++ context_lines rest
  end.

Definition conversation_context (msgs : list Message) : string :=
  if (1 <? List.length msgs)%nat then
    let recent_messages := last_n 3 msgs in
    nl ++ "Recent conversation context:" ++ nl
       ++ context_lines (removelast recent_messages)
  else "".

Definition routing_prompt (text context : string) : string :=
  lines [
    "";
    "    You are a customer support supervisor. Analyze the following customer message and determine which specialist should handle it:";
    "";
    "    Customer message: " ++ dq ++ text ++ dq;
    "    " ++ context;
    "";
    "    Available specialists:";
    "    1. technical_agent - For technical issues, password resets, connectivity problems, API issues, service outages";
    "    2. billing_agent - For billing inquiries, payments, refunds, account status, charges, current account balance, payment history";
    "    3. general_agent - For general questions, service plans, account management";
    "";
    "    Respond with ONLY the agent name (technical_agent, billing_agent, or general_agent) and a brief reason.";
    "    Format: agent_name|reason";
    "    "
  ].

Definition default_reason : string :=
  "Unable to categorize, routing to general support".

(** The [try] block around the two-way unpacking of [split("|", 1)]: any
    other number of parts raises, and the [except] arm sets the defaults. *)
Definition parse_choice (response : string) : string * string :=
  match split "|" 1 response with
  | [agent_choice; reason] => (strip agent_choice, strip reason)
  | _ => ("general_agent", default_reason)
  end.

Definition handoff_text (agent_choice reason : string) : string :=
  "I'm routing your request to our "
    ++ title (replace_char "_" " " agent_choice) ++ " team. " ++ reason.

(** The end of [supervisor_node], from the parse of the response to the
    returned update: the handoff message is appended to the history. *)
Definition routing_decision (msgs : list Message) (response : string)
  : SupportState :=
  let (agent_choice, reason) := parse_choice response in
  let handoff_message := AIMessage (handoff_text agent_choice reason) in
  {| messages := Some (msgs ++ [handoff_message])%list;
     active_agent := Some agent_choice;
     ticket_category := None;
     customer_id := None;
     next_agent := Some agent_choice |}.

Definition supervisor_node (env : Env) (state : SupportState)
  : Prog SupportState :=
  msgs <- getitem "messages" (messages state) ;;
  match last_item msgs with
  | Some (HumanMessage text) =>
      let agent := current_active_agent msgs in
      let user_content := lower text in
      let is_requesting_billing := any_keyword billing_keywords user_content in
      let is_requesting_technical := any_keyword technical_keywords user_content in
      let is_requesting_general := any_keyword general_keywords user_content in
      match agent,
            is_requesting_billing || is_requesting_technical || is_requesting_general
      with
      | Some current, false =>
          Ret {| messages := Some msgs;
                 active_agent := Some current;
                 ticket_category := None;
                 customer_id := None;
                 next_agent := Some current |}
      | _, _ =>
          _ <- get_llm env ;;
          let context := conversation_context msgs in
          response <- invoke [HumanMessage (routing_prompt text context)] ;;
          Ret (routing_decision msgs response)
      end
  | _ =>
      Ret {| messages := Some [AIMessage greeting];
             active_agent := None;
             ticket_category := None;
             customer_id := None;
             next_agent := None |}
  end.

Definition route_to_agent (state : SupportState) : string :=
  get (next_agent state) "general_agent".

(** How the graph runtime folds a node's update into a plain key of the
    state before it calls [route_to_agent]: a key of the update replaces the
    state's, an absent key leaves the state's as it was. *)
Definition merge_field {A : Type} (old new : option A) : option A :=
  match new with
  | Some v => Some v
  | None => old
  end.

End Agents.

(** [get_llm] succeeds exactly when the credential is a non-empty string. *)
Definition has_credential (env : Env) : bool :=
  match OPENAI_API_KEY env with
  | Some api_key => negb (Py.is_empty api_key)
  | None => false
  end.

(** ** Sample inputs

    Concrete environments, models and states on which the theorems below are
    exercised. *)

Module Samples.

Definition env : Env := mkEnv (Some "sk-test").

(** A model that answers every prompt with the same text. *)
Definition answering (text : string) : list Message -> Response :=
  fun _ => Content text.

(** A reasoning state at step 2 of a problem. *)
Definition at_step_two : ChainOfThought.ReasoningState :=
  {| ChainOfThought.messages := Some [HumanMessage "Which job offer should I take?"];
     ChainOfThought.current_problem := Some "Which job offer should I take?";
     ChainOfThought.step_count := Some 2%Z |}.

(** A reasoning state whose four steps are done. *)
Definition all_steps_done : ChainOfThought.ReasoningState :=
  {| ChainOfThought.messages := Some [HumanMessage "Which job offer should I take?"];
     ChainOfThought.current_problem := Some "Which job offer should I take?";
     ChainOfThought.step_count := Some 4%Z |}.

(** A reasoning state whose counter is 4 and whose problem is the empty
    string. *)
Definition done_without_problem : ChainOfThought.ReasoningState :=
  {| ChainOfThought.messages := Some [AIMessage "Hi"];
     ChainOfThought.current_problem := Some "";
     ChainOfThought.step_count := Some 4%Z |}.

(** A reasoning state with a user message in its history and no problem
    recorded. *)
Definition no_problem_yet : ChainOfThought.ReasoningState :=
  {| ChainOfThought.messages := Some [HumanMessage ""];
     ChainOfThought.current_problem := None;
     ChainOfThought.step_count := Some 0%Z |}.

(** A reasoning state with two step messages in its history. *)
Definition two_steps_recorded : ChainOfThought.ReasoningState :=
  {| ChainOfThought.messages :=
       Some [HumanMessage "p";
             AIMessage (ChainOfThought.step_message 0 "Problem Analysis" "a");
             AIMessage (ChainOfThought.step_message 1 "Information Gathering" "b")];
     ChainOfThought.current_problem := Some "p";
     ChainOfThought.step_count := Some 4%Z |}.

(** A first support turn: nothing was routed yet. *)
Definition first_turn : Agents.SupportState :=
  {| Agents.messages :=
       Some [HumanMessage "I was charged twice this month and need a refund"];
     Agents.active_agent := None;
     Agents.ticket_category := None;
     Agents.customer_id := None;
     Agents.next_agent := None |}.



(** A support state whose history ends with an assistant message. *)
Definition assistant_spoke_last : Agents.SupportState :=
  {| Agents.messages := Some [HumanMessage "hi"; AIMessage "Hello!"];
     Agents.active_agent := None;
     Agents.ticket_category := None;
     Agents.customer_id := None;
     Agents.next_agent := None |}.

End Samples.

(** ** The reasoning graph ([create_reasoning_graph])

    The graph has three nodes.  START leads to the coordinator, the
    coordinator to the step reasoner, the step reasoner to whatever
    [route_reasoning_flow] decides on the updated state, and the conclusion to
    END.  The runtime of the graph library folds the update a node returns
    into the state: a plain key of the update replaces the state's, an absent
    key leaves it; the reducer of the messages key keeps the messages it has
    and appends the new ones.  Every node of this graph returns the history
    it read with its new message appended, so the reduced history is the
    returned one. *)

Module ReasoningGraph.

Import ChainOfThought.

Inductive Node : Type := coordinator | step_reasoner | conclusion | END.

Definition merge_key {A : Type} (old new : option A) : option A :=
  match new with
  | Some v => Some v
  | None => old
  end.

Definition apply_update (state update : ReasoningState) : ReasoningState :=
  {| messages := merge_key (messages state) (messages update);
     current_problem := merge_key (current_problem state) (current_problem update);
     step_count := merge_key (step_count state) (step_count update) |}.

(** The mapping given to [add_conditional_edges]. *)
Definition conditional_edge (decision : string) : option Node :=
  if String.eqb decision "step_reasoner" then Some step_reasoner
  else if String.eqb decision "conclusion" then Some conclusion
  else if String.eqb decision "end" then Some END
  else None.

(** A run of the graph from a node, for at most [fuel] node visits; [None]
    when the visits run out before END (the library stops such a run at its
    recursion limit). *)
Fixpoint run_graph (env : Env) (fuel : nat) (node : Node)
  (state : ReasoningState) : Prog (option ReasoningState) :=
  match fuel with
  | O => Ret None
  | S fuel' =>
      match node with
      | END => Ret (Some state)
      | coordinator =>
          update <- reasoning_coordinator state ;;
          run_graph env fuel' step_reasoner (apply_update state update)
      | step_reasoner =>
          update <- step_by_step_reasoner env state ;;
          let state' := apply_update state update in
          match conditional_edge (route_reasoning_flow state') with
          | Some next => run_graph env fuel' next state'
          | None => Raise (KeyError (route_reasoning_flow state'))
          end
      | conclusion =>
          update <- conclusion_synthesizer env state ;;
          run_graph env fuel' END (apply_update state update)
      end
  end.

(** A model that answers every prompt, by the text [answer] gives. *)
Definition responsive (answer : list Message -> string)
  : list Message -> Response :=
  fun prompt => Content (answer prompt).

(** [app.invoke({"messages": msgs})] *)
Definition invoke_graph (env : Env) (fuel : nat) (msgs : list Message)
  : Prog (option ReasoningState) :=
  run_graph env fuel coordinator
    {| messages := Some msgs; current_problem := None; step_count := None |}.

End ReasoningGraph.

(** ** Further sample inputs *)

Module Cases.

(** An environment without the credential. *)
Definition env_without_key : Env := mkEnv None.

(** A reasoning state that lost its messages key. *)
Definition without_messages : ChainOfThought.ReasoningState :=
  {| ChainOfThought.messages := None;
     ChainOfThought.current_problem := Some "Which job offer should I take?";
     ChainOfThought.step_count := Some 1%Z |}.

(** A reasoning state with a counter of -1, and one with a counter of -5. *)
Definition counter_minus_one : ChainOfThought.ReasoningState :=
  {| ChainOfThought.messages := Some [HumanMessage "Which job offer should I take?"];
     ChainOfThought.current_problem := Some "Which job offer should I take?";
     ChainOfThought.step_count := Some (-1)%Z |}.

Definition counter_minus_five : ChainOfThought.ReasoningState :=
  {| ChainOfThought.messages := Some [HumanMessage "Which job offer should I take?"];
     ChainOfThought.current_problem := Some "Which job offer should I take?";
     ChainOfThought.step_count := Some (-5)%Z |}.

(** The history of a finished run on a first question, followed by a second
    question. *)
Definition second_question : list Message :=
  [HumanMessage "Which job offer should I take?";
   AIMessage (ChainOfThought.reasoning_prompt "Which job offer should I take?");
   AIMessage (ChainOfThought.step_message 0 "Problem Analysis" "first analysis");
   AIMessage (ChainOfThought.step_message 1 "Information Gathering" "first facts");
   AIMessage (ChainOfThought.step_message 2 "Option Generation" "first options");
   AIMessage (ChainOfThought.step_message 3 "Evaluation & Decision" "first decision");
   AIMessage (ChainOfThought.conclusion "Take the second offer.");
   HumanMessage "How do I learn a new language?"].

Definition second_turn : ChainOfThought.ReasoningState :=
  {| ChainOfThought.messages := Some second_question;
     ChainOfThought.current_problem := Some "How do I learn a new language?";
     ChainOfThought.step_count := Some 4%Z |}.

(** A billing handoff whose reason names the technical agent, a reply of
    the specialist, and the next message of the user. *)
Definition billing_reason : string :=
  "This is a refund, not a case for the technical agent".

Definition after_billing_handoff : list Message :=
  [HumanMessage "I was charged twice this month and need a refund";
   AIMessage (Agents.handoff_text "billing_agent" billing_reason);
   AIMessage "Your refund is on its way.";
   HumanMessage "thanks"].


(** A state handed to the technical specialist on the first turn, one reply
    and a new user message later. *)
Definition after_password_turn : Agents.SupportState :=
  {| Agents.messages :=
       Some [HumanMessage "I forgot my password";
             AIMessage (Agents.handoff_text "technical_agent" "password reset");
             AIMessage "A reset link is on its way.";
             HumanMessage "thanks"];
     Agents.active_agent := None;
     Agents.ticket_category := None;
     Agents.customer_id := None;
     Agents.next_agent := None |}.

Definition password_turn : Agents.SupportState :=
  {| Agents.messages := Some [HumanMessage "I forgot my password"];
     Agents.active_agent := None;
     Agents.ticket_category := None;
     Agents.customer_id := None;
     Agents.next_agent := None |}.

(** The state the chat application hands over on a first question. *)
Definition first_question : ChainOfThought.ReasoningState :=
  {| ChainOfThought.messages := Some [HumanMessage "Which job offer should I take?"];
     ChainOfThought.current_problem := None;
     ChainOfThought.step_count := None |}.

(** A state with an empty history. *)
Definition empty_history : ChainOfThought.ReasoningState :=
  {| ChainOfThought.messages := Some [];
     ChainOfThought.current_problem := None;
     ChainOfThought.step_count := None |}.

(** A support history of two messages, and one of a single message. *)
Definition two_messages : list Message :=
  [AIMessage "Hello! How can I help you today?";
   HumanMessage "I forgot my password"].



End Cases.

(** ** Facts about the string operations *)

Section StringFacts.

Import Py.

Lemma prefix_app (sub rest : string) : prefix sub (sub ++ rest) = true.
Proof.
  induction sub as [|c sub IH]; simpl.
  - now destruct rest.
  - destruct (ascii_dec c c) as [_|n]; [exact IH | now elim n].
Qed.

Lemma prefix_drop (sub s : string) :
  prefix sub s = true -> s = sub ++ drop (String.length sub) s.
Proof.
  revert s; induction sub as [|c sub IH]; intros s H.
  - reflexivity.
  - destruct s as [|d s]; [discriminate|].
    simpl in H. destruct (ascii_dec c d) as [e|]; [subst d|discriminate].
    simpl. f_equal. now apply IH.
Qed.

Lemma append_nil_r (s : string) : s ++ EmptyString = s.
Proof. induction s as [|c s IH]; simpl; [reflexivity | now rewrite IH]. Qed.

Lemma append_assoc (a b c : string) : (a ++ b) ++ c = a ++ b ++ c.
Proof. induction a as [|x a IH]; simpl; [reflexivity | now rewrite IH]. Qed.

Lemma contains_eq (sub s : string) :
  contains sub s =
  prefix sub s ||
  match s with
  | EmptyString => false
  | String _ s' => contains sub s'
  end.
Proof. destruct s; reflexivity. Qed.

Lemma partition_eq (sep s : string) :
  partition sep s =
  if prefix sep s then Some (EmptyString, drop (String.length sep) s)
  else match s with
       | EmptyString => None
       | String c s' =>
           match partition sep s' with
           | Some (a, b) => Some (String c a, b)
           | None => None
           end
       end.
Proof. destruct s; reflexivity. Qed.

(** [contains] is the substring relation. *)
Lemma contains_spec (sub s : string) :
  contains sub s = true <-> exists a b, s = a ++ sub ++ b.
Proof.
  split.
  - induction s as [|c s IH]; rewrite contains_eq; intros H.
    + rewrite orb_false_r in H. apply prefix_drop in H.
      exists EmptyString. eexists. exact H.
    + apply orb_true_iff in H as [H|H].
      * apply prefix_drop in H. exists EmptyString. eexists. exact H.
      * destruct (IH H) as (a & b & ->). now exists (String c a), b.
  - intros (a & b & ->). induction a as [|c a IH].
    + change (EmptyString ++ sub ++ b) with (sub ++ b).
      now rewrite contains_eq, prefix_app.
    + change (String c a ++ sub ++ b) with (String c (a ++ sub ++ b)).
      rewrite contains_eq, IH. apply orb_true_r.
Qed.

Lemma partition_none (sep s : string) :
  partition sep s = None <-> contains sep s = false.
Proof.
  induction s as [|c s IH]; rewrite partition_eq, contains_eq.
  - destruct (prefix sep EmptyString); simpl; split; congruence.
  - destruct (prefix sep (String c s)); simpl.
    + split; congruence.
    + rewrite <- IH. destruct (partition sep s) as [[a b]|]; split; congruence.
Qed.

(** A successful [partition] cuts the string around one occurrence of the
    separator. *)
Lemma partition_some (sep s a b : string) :
  partition sep s = Some (a, b) -> s = a ++ sep ++ b.
Proof.
  revert a; induction s as [|c s IH]; intros a; rewrite partition_eq.
  - destruct (prefix sep EmptyString) eqn:E; [|discriminate].
    intros [= <- <-]. now apply prefix_drop in E.
  - destruct (prefix sep (String c s)) eqn:E.
    + intros [= <- <-]. now apply prefix_drop in E.
    + destruct (partition sep s) as [[a' b']|] eqn:P; [|discriminate].
      intros [= <- <-]. simpl. f_equal. now apply IH.
Qed.

(** Without the separator, [split] returns the string alone. *)
Lemma split_without_separator (sep s : string) (maxsplit : nat) :
  contains sep s = false -> split sep maxsplit s = [s].
Proof.
  intros H. apply partition_none in H.
  destruct maxsplit; simpl; [reflexivity | now rewrite H].
Qed.

End StringFacts.

(** ** Node programs *)

Section Programs.

Lemma get_llm_with_credential (env : Env) :
  has_credential env = true -> get_llm env = Ret tt.
Proof.
  unfold has_credential, get_llm.
  destruct (OPENAI_API_KEY env) as [api_key|]; [|discriminate].
  now destruct (Py.is_empty api_key).
Qed.

(** Without a credential every node that asks for the model handle stops
    with ValueError before anything else happens. *)
Lemma get_llm_without_credential (env : Env) :
  has_credential env = false ->
  get_llm env = Raise (ValueError "Please set OPENAI_API_KEY environment variable").
Proof.
  unfold has_credential, get_llm.
  destruct (OPENAI_API_KEY env) as [api_key|]; [|reflexivity].
  now destruct (Py.is_empty api_key).
Qed.

Lemma get_llm_cases (env : Env) :
  get_llm env = Ret tt \/ exists e, get_llm env = Raise e.
Proof.
  destruct (has_credential env) eqn:E.
  - left. now apply get_llm_with_credential.
  - right. eexists. now apply get_llm_without_credential.
Qed.

End Programs.

(** ** The reasoning workflow *)

Section Reasoning.

Import Py ChainOfThought.
Local Open Scope Z_scope.

Variable llm : list Message -> Response.

Lemma step_prompts_length (problem : string) :
  Z.of_nat (List.length (step_prompts problem)) = 4%Z.
Proof. reflexivity. Qed.

(** The reasoner, once the credential is read and the problem is known to be
    non-empty. *)
Lemma step_by_step_reasoner_eq (env : Env) (st : ReasoningState) :
  has_credential env = true ->
  is_empty (get (current_problem st) "") = false ->
  step_by_step_reasoner env st =
  let problem := get (current_problem st) "" in
  let count := get (step_count st) 0%Z in
  if (count <? 4)%Z then
    match index (step_prompts problem) count with
    | None => Raise (IndexError "list index out of range")
    | Some (title, prompt) =>
        response <- invoke [SystemMessage reasoner_system_prompt;
                            HumanMessage prompt] ;;
        msgs <- getitem "messages" (messages st) ;;
        Ret {| messages :=
                 Some (msgs ++ [AIMessage (step_message count title response)])%list;
               current_problem := Some problem;
               step_count := Some (count + 1)%Z |}
    end
  else Ret st.
Proof.
  intros Hcred Hproblem. unfold step_by_step_reasoner.
  rewrite (get_llm_with_credential env Hcred). cbn [bind].
  rewrite Hproblem, step_prompts_length. reflexivity.
Qed.

(** An index inside the template list selects a template. *)
Lemma step_prompts_index (problem : string) (count : Z) :
  (0 <= count < 4)%Z ->
  exists title prompt,
    index (step_prompts problem) count = Some (title, prompt) /\
    nth_error (step_prompts problem) (Z.to_nat count) = Some (title, prompt).
Proof.
  intros H.
  assert (count = 0 \/ count = 1 \/ count = 2 \/ count = 3)%Z
    as [-> | [-> | [-> | ->]]] by lia;
    do 2 eexists; split; reflexivity.
Qed.

(** The counter never passes 4: from a counter of at most 4, whatever the
    reasoner returns carries a counter of at most 4. *)
Lemma reasoner_counter_bounded (env : Env) (st r : ReasoningState) :
  (get (step_count st) 0 <= 4)%Z ->
  snd (run llm (step_by_step_reasoner env st)) = inr r ->
  (get (step_count r) 0 <= 4)%Z.
Proof.
  intros Hc. unfold step_by_step_reasoner.
  destruct (get_llm_cases env) as [-> | [e ->]]; cbn [bind run snd];
    [|discriminate].
  destruct (is_empty (get (current_problem st) "")).
  - destruct (messages st) as [msgs|]; cbn [getitem bind run snd];
      [|discriminate].
    intros [= <-]. exact Hc.
  - rewrite step_prompts_length.
    destruct (get (step_count st) 0 <? 4)%Z eqn:Hlt.
    + apply Z.ltb_lt in Hlt.
      destruct (index _ _) as [[title prompt]|]; cbn [bind invoke run snd];
        [|discriminate].
      destruct (llm _) as [response|e]; cbn [bind run snd]; [|discriminate].
      destruct (messages st) as [msgs|]; cbn [getitem bind run snd];
        [|discriminate].
      intros [= <-]. cbn [step_count get]. lia.
    + cbn [run snd]. intros [= <-]. exact Hc.
Qed.

(** Below -4 the counter indexes no template: the reasoner raises
    IndexError (with this message for a counter that fits a machine
    index). *)
Lemma reasoner_index_error (env : Env) (st : ReasoningState) :
  has_credential env = true ->
  is_empty (get (current_problem st) "") = false ->
  (- 2 ^ 63 <= get (step_count st) 0 < -4)%Z ->
  run llm (step_by_step_reasoner env st)
  = ([], inl (IndexError "list index out of range")).
Proof.
  intros Hcred Hproblem Hc.
  rewrite (step_by_step_reasoner_eq env st Hcred Hproblem). cbv zeta.
  destruct (Z.ltb_spec (get (step_count st) 0) 4); [|lia].
  unfold index. rewrite step_prompts_length.
  destruct (Z.leb_spec 0 (get (step_count st) 0)); [lia|].
  destruct (Z.leb_spec (Z.opp 4) (get (step_count st) 0)); [lia|].
  reflexivity.
Qed.

(** C1, as stated, fails: at counter 4 with an empty problem statement the
    reasoner does not return the state unchanged; it appends the help
    request. *)
Lemma reasoner_at_four_without_problem_appends :
  (4 <= get (step_count Samples.done_without_problem) 0)%Z /\
  run (Samples.answering "ok")
      (step_by_step_reasoner Samples.env Samples.done_without_problem)
  = ([], inr {| messages := Some [AIMessage "Hi"; AIMessage help_request];
                current_problem := None;
                step_count := Some 4%Z |}) /\
  run (Samples.answering "ok")
      (step_by_step_reasoner Samples.env Samples.done_without_problem)
  <> ([], inr Samples.done_without_problem).
Proof.
  split; [|split].
  - cbn. lia.
  - reflexivity.
  - discriminate.
Qed.

(** C1 (amended): with a counter from 0 to 3 and a non-empty problem
    statement, one invocation of the reasoner sends one prompt, appends exactly
    one step message (numbered counter + 1, titled by the template at the
    counter) and returns the counter plus one; with a counter of 4 or more and
    a non-empty problem statement it sends nothing and returns the state
    itself; so a counter of at most 4 stays at most 4. *)
Theorem reasoner_step_counter (env : Env) (st : ReasoningState)
  (msgs : list Message) :
  has_credential env = true ->
  messages st = Some msgs ->
  is_empty (get (current_problem st) "") = false ->
  ((0 <= get (step_count st) 0 < 4)%Z ->
   exists title prompt,
     nth_error (step_prompts (get (current_problem st) ""))
               (Z.to_nat (get (step_count st) 0)) = Some (title, prompt) /\
     forall response,
       llm [SystemMessage reasoner_system_prompt; HumanMessage prompt]
       = Content response ->
       run llm (step_by_step_reasoner env st)
       = ([[SystemMessage reasoner_system_prompt; HumanMessage prompt]],
          inr {| messages :=
                   Some (msgs ++ [AIMessage (step_message (get (step_count st) 0)
                                                          title response)])%list;
                 current_problem := Some (get (current_problem st) "");
                 step_count := Some (get (step_count st) 0 + 1)%Z |})) /\
  ((4 <= get (step_count st) 0)%Z ->
   run llm (step_by_step_reasoner env st) = ([], inr st)) /\
  ((get (step_count st) 0 <= 4)%Z ->
   forall r, snd (run llm (step_by_step_reasoner env st)) = inr r ->
             (get (step_count r) 0 <= 4)%Z).
Proof.
  intros Hcred Hmsgs Hproblem. split; [|split].
  - intros Hc.
    destruct (step_prompts_index (get (current_problem st) "") _ Hc)
      as (title & prompt & Hindex & Hnth).
    exists title, prompt. split; [exact Hnth|].
    intros response Hllm.
    rewrite (step_by_step_reasoner_eq env st Hcred Hproblem). cbv zeta.
    destruct (Z.ltb_spec (get (step_count st) 0) 4); [|lia].
    rewrite Hindex. cbn [bind invoke run]. rewrite Hllm, Hmsgs. reflexivity.
  - intros Hc.
    rewrite (step_by_step_reasoner_eq env st Hcred Hproblem). cbv zeta.
    destruct (Z.ltb_spec (get (step_count st) 0) 4); [lia|]. reflexivity.
  - intros Hc r. now apply reasoner_counter_bounded.
Qed.

(** C9: with an empty problem statement (an absent key reads as the empty
    string) the reasoner sends no prompt, appends exactly the help request
    and returns the counter it read, not incremented. *)
Theorem reasoner_asks_for_a_problem (env : Env) (st : ReasoningState)
  (msgs : list Message) :
  has_credential env = true ->
  messages st = Some msgs ->
  get (current_problem st) "" = "" ->
  run llm (step_by_step_reasoner env st)
  = ([], inr {| messages :=
                  Some (msgs ++ [AIMessage "I need a problem to analyze. Please provide a question or issue you'd like me to think through."])%list;
                current_problem := None;
                step_count := Some (get (step_count st) 0) |}).
Proof.
  intros Hcred Hmsgs Hproblem. unfold step_by_step_reasoner.
  rewrite (get_llm_with_credential env Hcred). cbn [bind].
  rewrite Hproblem. cbn [is_empty]. rewrite Hmsgs. reflexivity.
Qed.

(** C6: when fewer than three step texts are parsed from the history, the
    synthesizer sends no prompt, appends exactly the blocking message and
    returns the counter it read. *)
Theorem conclusion_refused_below_three_steps (env : Env) (st : ReasoningState)
  (msgs : list Message) :
  has_credential env = true ->
  messages st = Some msgs ->
  (List.length (extract_steps msgs) < 3)%nat ->
  run llm (conclusion_synthesizer env st)
  = ([], inr {| messages :=
                  Some (msgs ++ [AIMessage "I need more reasoning steps before I can provide a conclusion."])%list;
                current_problem := None;
                step_count := Some (get (step_count st) 0) |}).
Proof.
  intros Hcred Hmsgs Hsteps. unfold conclusion_synthesizer.
  rewrite (get_llm_with_credential env Hcred). cbn [bind].
  rewrite Hmsgs. cbn [get].
  destruct (Nat.ltb_spec (List.length (extract_steps msgs)) 3); [|lia].
  reflexivity.
Qed.

(** With three step texts or more the synthesizer does send its prompt: the
    refusal of C6 is tied to the count of parsed steps. *)
Lemma conclusion_synthesized_from_three_steps (env : Env) (st : ReasoningState)
  (msgs : list Message) (response : string) :
  has_credential env = true ->
  messages st = Some msgs ->
  (3 <= List.length (extract_steps msgs))%nat ->
  llm [SystemMessage synthesizer_system_prompt;
       HumanMessage (synthesis_prompt (get (current_problem st) "")
                                      (extract_steps msgs))]
  = Content response ->
  run llm (conclusion_synthesizer env st)
  = ([[SystemMessage synthesizer_system_prompt;
       HumanMessage (synthesis_prompt (get (current_problem st) "")
                                      (extract_steps msgs))]],
     inr {| messages := Some (msgs ++ [AIMessage (conclusion response)])%list;
            current_problem := Some (get (current_problem st) "");
            step_count := Some (get (step_count st) 0) |}).
Proof.
  intros Hcred Hmsgs Hsteps Hllm. unfold conclusion_synthesizer.
  rewrite (get_llm_with_credential env Hcred). cbn [bind].
  rewrite Hmsgs. cbn [get].
  destruct (Nat.ltb_spec (List.length (extract_steps msgs)) 3); [lia|].
  cbn [bind invoke run]. rewrite Hllm. reflexivity.
Qed.

(** C7: the flow router reads the counter only; it answers step_reasoner
    exactly below 4, conclusion exactly from 4 on, and never the end
    branch. *)
Theorem route_reasoning_flow_by_counter (st : ReasoningState) :
  (route_reasoning_flow st = "step_reasoner" <-> get (step_count st) 0 < 4) /\
  (route_reasoning_flow st = "conclusion" <-> 4 <= get (step_count st) 0) /\
  route_reasoning_flow st <> "end" /\
  (forall st' : ReasoningState,
      get (step_count st') 0 = get (step_count st) 0 ->
      route_reasoning_flow st' = route_reasoning_flow st).
Proof.
  unfold route_reasoning_flow.
  repeat split.
  - destruct (Z.ltb_spec (get (step_count st) 0) 4); [trivial|].
    destruct (get (step_count st) 0 >=? 4); discriminate.
  - intros H. destruct (Z.ltb_spec (get (step_count st) 0) 4); [reflexivity|lia].
  - destruct (Z.ltb_spec (get (step_count st) 0) 4); [discriminate|trivial].
  - intros H. destruct (Z.ltb_spec (get (step_count st) 0) 4); [lia|].
    destruct (get (step_count st) 0 >=? 4) eqn:E; [reflexivity|].
    rewrite Z.geb_leb in E. apply Z.leb_gt in E. lia.
  - destruct (Z.ltb_spec (get (step_count st) 0) 4); [discriminate|].
    destruct (get (step_count st) 0 >=? 4) eqn:E; [discriminate|].
    rewrite Z.geb_leb in E. apply Z.leb_gt in E. lia.
  - intros st' ->. reflexivity.
Qed.

(** The announcement, character by character. *)
Lemma reasoning_prompt_text (text : string) :
  reasoning_prompt text
  = "🧠 **Starting Chain of Thought Analysis**

I need to think through this problem step by step: "
    ++ String "034"%char text ++ String "034"%char "

Let me break this down systematically using a structured reasoning approach.".
Proof.
  change (reasoning_prompt text)
    with (("🧠 **Starting Chain of Thought Analysis**" ++ nl ++ nl
           ++ "I need to think through this problem step by step: " ++ dq)
          ++ (text ++ dq) ++ nl ++ nl
          ++ "Let me break this down systematically using a structured reasoning approach.").
  now rewrite (append_assoc text dq).
Qed.

(** C8: on an empty history the coordinator returns the greeting alone; on a
    history that ends with a user message it records that message's text as
    the problem, sets the counter to 0 and appends the starting-analysis
    announcement: the fixed title, and the user text in quotes inside the
    fixed sentences.  No prompt is sent in either case. *)
Theorem reasoning_coordinator_contract (st : ReasoningState) :
  (messages st = Some [] ->
   run llm (reasoning_coordinator st)
   = ([], inr {| messages :=
                   Some [AIMessage "Hello! I'm your Chain of Thought Reasoning Agent. I'll help you think through problems step by step. What would you like me to analyze?"];
                 current_problem := None;
                 step_count := None |})) /\
  (forall (msgs : list Message) (text : string),
      messages st = Some msgs ->
      last_item msgs = Some (HumanMessage text) ->
      run llm (reasoning_coordinator st)
      = ([], inr {| messages :=
                      Some (msgs ++ [AIMessage
("🧠 **Starting Chain of Thought Analysis**

I need to think through this problem step by step: "
   ++ String "034"%char text ++ String "034"%char "

Let me break this down systematically using a structured reasoning approach.")])%list;
                    current_problem := Some text;
                    step_count := Some 0 |})).
Proof.
  unfold reasoning_coordinator. split.
  - intros ->. reflexivity.
  - intros msgs text -> Hlast. cbn [getitem bind].
    destruct msgs as [|m msgs]; [discriminate|].
    rewrite Hlast, reasoning_prompt_text. reflexivity.
Qed.

(** When the history ends with anything but a user message, the coordinator
    hands the state back. *)
Lemma reasoning_coordinator_passes_through (st : ReasoningState)
  (msgs : list Message) (m : Message) :
  messages st = Some msgs ->
  last_item msgs = Some m ->
  is_human m = false ->
  run llm (reasoning_coordinator st) = ([], inr st).
Proof.
  unfold reasoning_coordinator. intros -> Hlast Hm. cbn [getitem bind].
  destruct msgs as [|m0 msgs]; [discriminate|].
  rewrite Hlast. now destruct m.
Qed.

End Reasoning.

(** The theorems of the reasoning workflow on the sample states. *)

Section ReasoningWitnesses.

Import Py ChainOfThought.
Local Open Scope Z_scope.

Lemma reasoner_step_counter_witness :
  run (Samples.answering "ok")
      (step_by_step_reasoner Samples.env Samples.all_steps_done)
  = ([], inr Samples.all_steps_done) /\
  exists prompt,
    run (Samples.answering "ok")
        (step_by_step_reasoner Samples.env Samples.at_step_two)
    = ([[SystemMessage reasoner_system_prompt; HumanMessage prompt]],
       inr {| messages :=
                Some [HumanMessage "Which job offer should I take?";
                      AIMessage (step_message 2 "Option Generation" "ok")];
              current_problem := Some "Which job offer should I take?";
              step_count := Some 3 |}).
Proof.
  split.
  - apply (reasoner_step_counter (Samples.answering "ok") Samples.env
             Samples.all_steps_done _ eq_refl eq_refl eq_refl).
    cbn. lia.
  - destruct (reasoner_step_counter (Samples.answering "ok") Samples.env
                Samples.at_step_two _ eq_refl eq_refl eq_refl) as [Hstep _].
    destruct Hstep as (title & prompt & Hnth & Hrun); [cbn; lia|].
    cbn in Hnth. injection Hnth as <- <-.
    eexists. apply Hrun. reflexivity.
Defined.

Lemma reasoner_asks_for_a_problem_witness :
  run (Samples.answering "ok")
      (step_by_step_reasoner Samples.env Samples.no_problem_yet)
  = ([], inr {| messages := Some [HumanMessage ""; AIMessage help_request];
                current_problem := None;
                step_count := Some 0 |}).
Proof.
  exact (reasoner_asks_for_a_problem (Samples.answering "ok") Samples.env
           Samples.no_problem_yet _ eq_refl eq_refl eq_refl).
Defined.

Lemma conclusion_refused_below_three_steps_witness :
  (List.length (extract_steps (get (messages Samples.two_steps_recorded) [])) = 2)%nat /\
  run (Samples.answering "ok")
      (conclusion_synthesizer Samples.env Samples.two_steps_recorded)
  = ([], inr {| messages :=
                  Some [HumanMessage "p";
                        AIMessage (step_message 0 "Problem Analysis" "a");
                        AIMessage (step_message 1 "Information Gathering" "b");
                        AIMessage blocking_message];
                current_problem := None;
                step_count := Some 4 |}).
Proof.
  split; [reflexivity|].
  apply (conclusion_refused_below_three_steps (Samples.answering "ok")
           Samples.env Samples.two_steps_recorded _ eq_refl eq_refl).
  cbn. lia.
Defined.

Lemma route_reasoning_flow_by_counter_witness :
  route_reasoning_flow Samples.at_step_two = "step_reasoner" /\
  route_reasoning_flow Samples.all_steps_done = "conclusion".
Proof.
  split.
  - apply (route_reasoning_flow_by_counter Samples.at_step_two). cbn. lia.
  - apply (route_reasoning_flow_by_counter Samples.all_steps_done). cbn. lia.
Defined.

Lemma reasoning_coordinator_contract_witness :
  run (Samples.answering "ok") (reasoning_coordinator Cases.empty_history)
  = ([], inr {| messages :=
                  Some [AIMessage "Hello! I'm your Chain of Thought Reasoning Agent. I'll help you think through problems step by step. What would you like me to analyze?"];
                current_problem := None;
                step_count := None |}) /\
  run (Samples.answering "ok") (reasoning_coordinator Cases.first_question)
  = ([], inr {| messages :=
                  Some [HumanMessage "Which job offer should I take?";
                        AIMessage
("🧠 **Starting Chain of Thought Analysis**

I need to think through this problem step by step: "
   ++ String "034"%char "Which job offer should I take?" ++ String "034"%char "

Let me break this down systematically using a structured reasoning approach.")];
                current_problem := Some "Which job offer should I take?";
                step_count := Some 0 |}).
Proof.
  exact (conj
           (proj1 (reasoning_coordinator_contract (Samples.answering "ok")
                     Cases.empty_history) eq_refl)
           (proj2 (reasoning_coordinator_contract (Samples.answering "ok")
                     Cases.first_question) _ _ eq_refl eq_refl)).
Defined.

End ReasoningWitnesses.

(** ** The support workflow *)

Section Support.

Import Py Agents.

Variable llm : list Message -> Response.

(** The supervisor on a history that ends with a user message. *)
Lemma supervisor_node_on_user_message (env : Env) (st : SupportState)
  (msgs : list Message) (text : string) :
  messages st = Some msgs ->
  last_item msgs = Some (HumanMessage text) ->
  supervisor_node env st =
  match current_active_agent msgs,
        any_keyword billing_keywords (lower text)
        || any_keyword technical_keywords (lower text)
        || any_keyword general_keywords (lower text)
  with
  | Some current, false =>
      Ret {| messages := Some msgs;
             active_agent := Some current;
             ticket_category := None;
             customer_id := None;
             next_agent := Some current |}
  | _, _ =>
      _ <- get_llm env ;;
      response <- invoke [HumanMessage (routing_prompt text (conversation_context msgs))] ;;
      Ret (routing_decision msgs response)
  end.
Proof.
  intros Hmsgs Hlast. unfold supervisor_node.
  rewrite Hmsgs. cbn [getitem bind]. rewrite Hlast. reflexivity.
Qed.

(** One run of the classification branch: one prompt, and the routing
    decision read off the response. *)
Lemma classification_run (env : Env) (msgs : list Message) (text : string) :
  has_credential env = true ->
  run llm (_ <- get_llm env ;;
           response <- invoke [HumanMessage (routing_prompt text (conversation_context msgs))] ;;
           Ret (routing_decision msgs response))
  = ([[HumanMessage (routing_prompt text (conversation_context msgs))]],
     match llm [HumanMessage (routing_prompt text (conversation_context msgs))] with
     | Content response => inr (routing_decision msgs response)
     | Fault e => inl e
     end).
Proof.
  intros Hcred. rewrite (get_llm_with_credential env Hcred).
  cbn [bind invoke run].
  now destruct (llm [HumanMessage (routing_prompt text (conversation_context msgs))]).
Qed.

(** The loop finds no active specialist when no message it visits is a
    handoff announcement. *)
Lemma last_routing_without_announcement (msgs : list Message) :
  (forall m, In m msgs ->
     is_ai m && contains "routing your request to our" (lower (content m)) = false) ->
  last_routing msgs = None.
Proof.
  induction msgs as [|m msgs IH]; intros H; cbn [last_routing].
  - reflexivity.
  - rewrite (H m (or_introl eq_refl)). apply IH.
    intros m' Hin. apply H. now right.
Qed.

(** A response without the delimiter is parsed to the general specialist and
    the generic reason. *)
Lemma routing_decision_without_delimiter (msgs : list Message) (response : string) :
  contains "|" response = false ->
  routing_decision msgs response
  = {| messages :=
         Some (msgs ++ [AIMessage "I'm routing your request to our General Agent team. Unable to categorize, routing to general support"])%list;
       active_agent := Some "general_agent";
       ticket_category := None;
       customer_id := None;
       next_agent := Some "general_agent" |}.
Proof.
  intros H. unfold routing_decision, parse_choice.
  rewrite (split_without_separator "|" response 1 H). reflexivity.
Qed.

(** What a run of the classification branch amounts to: one prompt; for
    every response a handoff message appended and one agent named as active
    and next; for an ASCII response, the routing decision read off it; a
    fault of the call is passed on. *)
Lemma classification_outcomes (env : Env) (st : SupportState)
  (msgs : list Message) (text : string) :
  run llm (supervisor_node env st)
  = ([[HumanMessage (routing_prompt text (conversation_context msgs))]],
     match llm [HumanMessage (routing_prompt text (conversation_context msgs))] with
     | Content response => inr (routing_decision msgs response)
     | Fault e => inl e
     end) ->
  fst (run llm (supervisor_node env st))
  = [[HumanMessage (routing_prompt text (conversation_context msgs))]] /\
  (forall response,
      llm [HumanMessage (routing_prompt text (conversation_context msgs))]
      = Content response ->
      exists agent announcement,
        snd (run llm (supervisor_node env st))
        = inr {| messages := Some (msgs ++ [AIMessage announcement])%list;
                 active_agent := Some agent;
                 ticket_category := None;
                 customer_id := None;
                 next_agent := Some agent |}) /\
  (forall response,
      llm [HumanMessage (routing_prompt text (conversation_context msgs))]
      = Content response ->
      isascii response = true ->
      snd (run llm (supervisor_node env st))
      = inr (routing_decision msgs response)) /\
  (forall e,
      llm [HumanMessage (routing_prompt text (conversation_context msgs))]
      = Fault e ->
      snd (run llm (supervisor_node env st)) = inl e).
Proof.
  intros ->. cbn [fst snd]. split; [reflexivity|]. split; [|split].
  - intros response ->. unfold routing_decision.
    destruct (parse_choice response) as [agent reason]. now eexists _, _.
  - now intros response -> _.
  - now intros e ->.
Qed.

(** C3: when no message before the latest one is a handoff announcement and
    the latest message is a user message, with a billing keyword or without,
    the supervisor sends exactly one prompt, the classification prompt; the
    sticky path is not taken: whatever the response, a handoff message is
    appended, and for an ASCII response the outcome is the routing decision
    read off it. *)
Theorem no_handoff_means_fresh_classification (env : Env) (st : SupportState)
  (msgs : list Message) (text : string) :
  has_credential env = true ->
  messages st = Some msgs ->
  last_item msgs = Some (HumanMessage text) ->
  (forall m, In m (removelast msgs) ->
     is_ai m && contains "routing your request to our" (lower (content m)) = false) ->
  fst (run llm (supervisor_node env st))
  = [[HumanMessage (routing_prompt text (conversation_context msgs))]] /\
  (forall response,
      llm [HumanMessage (routing_prompt text (conversation_context msgs))]
      = Content response ->
      exists agent announcement,
        snd (run llm (supervisor_node env st))
        = inr {| messages := Some (msgs ++ [AIMessage announcement])%list;
                 active_agent := Some agent;
                 ticket_category := None;
                 customer_id := None;
                 next_agent := Some agent |}) /\
  (forall response,
      llm [HumanMessage (routing_prompt text (conversation_context msgs))]
      = Content response ->
      isascii response = true ->
      snd (run llm (supervisor_node env st))
      = inr (routing_decision msgs response)) /\
  (forall e,
      llm [HumanMessage (routing_prompt text (conversation_context msgs))]
      = Fault e ->
      snd (run llm (supervisor_node env st)) = inl e).
Proof.
  intros Hcred Hmsgs Hlast Hnone. apply classification_outcomes.
  rewrite (supervisor_node_on_user_message env st msgs text Hmsgs Hlast).
  unfold current_active_agent.
  rewrite last_routing_without_announcement.
  - now apply classification_run.
  - intros m Hin. apply Hnone. now apply in_rev.
Qed.


(** Whatever prompt the supervisor sends is the classification prompt, and
    its outcome is then read off the response. *)
Lemma supervisor_call_is_classification (env : Env) (st : SupportState)
  (msgs : list Message) (prompt : list Message) (response : string) :
  messages st = Some msgs ->
  fst (run llm (supervisor_node env st)) = [prompt] ->
  llm prompt = Content response ->
  snd (run llm (supervisor_node env st)) = inr (routing_decision msgs response).
Proof.
  intros Hmsgs Htrace Hllm.
  assert (Hclass : forall text,
    fst (run llm (_ <- get_llm env ;;
                  response <- invoke [HumanMessage (routing_prompt text (conversation_context msgs))] ;;
                  Ret (routing_decision msgs response))) = [prompt] ->
    snd (run llm (_ <- get_llm env ;;
                  response <- invoke [HumanMessage (routing_prompt text (conversation_context msgs))] ;;
                  Ret (routing_decision msgs response)))
    = inr (routing_decision msgs response)).
  { intros text.
    destruct (get_llm_cases env) as [-> | [e ->]]; cbn [bind invoke run fst snd];
      [|discriminate].
    destruct (llm [HumanMessage (routing_prompt text (conversation_context msgs))])
      as [answer|e] eqn:Hanswer; cbn [run fst snd]; intros [= <-].
    - rewrite Hanswer in Hllm. now injection Hllm as ->.
    - rewrite Hanswer in Hllm. discriminate. }
  revert Htrace. unfold supervisor_node. rewrite Hmsgs. cbn [getitem bind].
  destruct (last_item msgs) as [[text|text|text|text]|];
    try (cbn [run fst]; discriminate).
  destruct (current_active_agent msgs) as [current|];
    [destruct (any_keyword billing_keywords (lower text)
               || any_keyword technical_keywords (lower text)
               || any_keyword general_keywords (lower text))|];
    try (cbn [run fst]; discriminate); apply Hclass.
Qed.

(** C5: when the supervisor has sent its classification prompt and the
    response text has no "|" in it, the routing decision is the general
    specialist, the reason is the generic one, and the handoff announcement
    is still appended to the history. *)
Theorem malformed_response_routes_to_general (env : Env) (st : SupportState)
  (msgs : list Message) (prompt : list Message) (response : string) :
  messages st = Some msgs ->
  fst (run llm (supervisor_node env st)) = [prompt] ->
  llm prompt = Content response ->
  contains "|" response = false ->
  snd (run llm (supervisor_node env st))
  = inr {| messages :=
             Some (msgs ++ [AIMessage "I'm routing your request to our General Agent team. Unable to categorize, routing to general support"])%list;
           active_agent := Some "general_agent";
           ticket_category := None;
           customer_id := None;
           next_agent := Some "general_agent" |}.
Proof.
  intros Hmsgs Htrace Hllm Hdelim.
  rewrite (supervisor_call_is_classification env st msgs prompt response
             Hmsgs Htrace Hllm).
  now rewrite routing_decision_without_delimiter.
Qed.

(** C10: on an empty history, or one whose latest message is not a user
    message, the supervisor sends no prompt and returns the greeting alone:
    no handoff announcement, no active agent, no next agent.  A state that
    had no next agent before therefore has none after the update, and
    [route_to_agent] answers its default, the general agent. *)
Theorem supervisor_greets_without_user_message (env : Env) (st : SupportState)
  (msgs : list Message) :
  messages st = Some msgs ->
  (msgs = [] \/ exists m, last_item msgs = Some m /\ is_human m = false) ->
  run llm (supervisor_node env st)
  = ([], inr {| messages := Some [AIMessage "Hello! How can I help you today?"];
                active_agent := None;
                ticket_category := None;
                customer_id := None;
                next_agent := None |}) /\
  (forall update st' : SupportState,
      snd (run llm (supervisor_node env st)) = inr update ->
      next_agent st = None ->
      next_agent st' = merge_field (next_agent st) (next_agent update) ->
      route_to_agent st' = "general_agent").
Proof.
  intros Hmsgs Hlast.
  assert (Hrun : run llm (supervisor_node env st)
    = ([], inr {| messages := Some [AIMessage greeting];
                  active_agent := None;
                  ticket_category := None;
                  customer_id := None;
                  next_agent := None |})).
  { unfold supervisor_node. rewrite Hmsgs. cbn [getitem bind].
    destruct Hlast as [-> | (m & -> & Hm)]; [reflexivity|].
    now destruct m. }
  split; [exact Hrun|].
  intros update st' Hupdate Hnone Hmerge. rewrite Hrun in Hupdate.
  injection Hupdate as <-. unfold route_to_agent.
  rewrite Hmerge, Hnone. reflexivity.
Qed.

End Support.

(** The theorems of the support workflow on the sample conversations. *)

Section SupportWitnesses.

Import Py Agents.

(** A first message about a refund is classified. *)
Lemma no_handoff_means_fresh_classification_witness :
  fst (run (Samples.answering "billing_agent|refund")
           (supervisor_node Samples.env Samples.first_turn))
  = [[HumanMessage
        (routing_prompt "I was charged twice this month and need a refund" "")]] /\
  snd (run (Samples.answering "billing_agent|refund")
           (supervisor_node Samples.env Samples.first_turn))
  = inr {| messages :=
             Some [HumanMessage "I was charged twice this month and need a refund";
                   AIMessage "I'm routing your request to our Billing Agent team. refund"];
           active_agent := Some "billing_agent";
           ticket_category := None;
           customer_id := None;
           next_agent := Some "billing_agent" |}.
Proof.
  destruct (no_handoff_means_fresh_classification
              (Samples.answering "billing_agent|refund") Samples.env
              Samples.first_turn _ _ eq_refl eq_refl eq_refl)
    as (Htrace & _ & Hascii & _).
  - intros m [].
  - split; [exact Htrace | exact (Hascii _ eq_refl eq_refl)].
Defined.


(** A response without the delimiter, on the first turn. *)
Lemma malformed_response_routes_to_general_witness :
  snd (run (Samples.answering "billing_agent: refund")
           (supervisor_node Samples.env Samples.first_turn))
  = inr {| messages :=
             Some [HumanMessage "I was charged twice this month and need a refund";
                   AIMessage "I'm routing your request to our General Agent team. Unable to categorize, routing to general support"];
           active_agent := Some "general_agent";
           ticket_category := None;
           customer_id := None;
           next_agent := Some "general_agent" |}.
Proof.
  exact (malformed_response_routes_to_general
           (Samples.answering "billing_agent: refund") Samples.env
           Samples.first_turn _ _ "billing_agent: refund"
           eq_refl eq_refl eq_refl eq_refl).
Defined.

(** A history that ends with an assistant message is greeted, and the router
    then answers the general agent. *)
Lemma supervisor_greets_without_user_message_witness :
  run (Samples.answering "billing_agent|refund")
      (supervisor_node Samples.env Samples.assistant_spoke_last)
  = ([], inr {| messages := Some [AIMessage "Hello! How can I help you today?"];
                active_agent := None;
                ticket_category := None;
                customer_id := None;
                next_agent := None |}) /\
  route_to_agent Samples.assistant_spoke_last = "general_agent".
Proof.
  destruct (supervisor_greets_without_user_message
              (Samples.answering "billing_agent|refund") Samples.env
              Samples.assistant_spoke_last _ eq_refl
              (or_intror (ex_intro _ (AIMessage "Hello!") (conj eq_refl eq_refl))))
    as [Hrun Hroute].
  split; [exact Hrun|].
  apply (Hroute _ Samples.assistant_spoke_last (f_equal snd Hrun) eq_refl eq_refl).
Defined.

End SupportWitnesses.

(** ** Error and edge behaviour of the reasoning nodes *)

Section ReasoningEdges.

Import Py ChainOfThought.
Local Open Scope Z_scope.

Variable llm : list Message -> Response.

(** X1: without a credential (unset or empty) the reasoner and the
    synthesizer raise ValueError on every state, before the guard on the
    problem statement and before any prompt. *)
Theorem reasoning_nodes_need_credential (env : Env) (st : ReasoningState) :
  has_credential env = false ->
  run llm (step_by_step_reasoner env st)
  = ([], inl (ValueError "Please set OPENAI_API_KEY environment variable")) /\
  run llm (conclusion_synthesizer env st)
  = ([], inl (ValueError "Please set OPENAI_API_KEY environment variable")).
Proof.
  intros H. unfold step_by_step_reasoner, conclusion_synthesizer.
  rewrite (get_llm_without_credential env H). split; reflexivity.
Qed.

(** X2: on a state without a messages key the coordinator raises KeyError,
    and so does the synthesizer, which reads an empty history first and so
    sends no prompt. *)
Theorem reasoning_nodes_without_messages_key (env : Env) (st : ReasoningState) :
  messages st = None ->
  run llm (reasoning_coordinator st) = ([], inl (KeyError "messages")) /\
  (has_credential env = true ->
   run llm (conclusion_synthesizer env st) = ([], inl (KeyError "messages"))).
Proof.
  intros Hnone. split.
  - unfold reasoning_coordinator. rewrite Hnone. reflexivity.
  - intros Hcred. unfold conclusion_synthesizer.
    rewrite (get_llm_with_credential env Hcred), Hnone. reflexivity.
Qed.

(** X3: the reasoner reads the history after the model has answered: on a
    state without a messages key, with a problem and a counter from 0 to 3,
    the prompt is sent and KeyError is raised afterwards. *)
Theorem reasoner_invokes_before_reading_history (env : Env)
  (st : ReasoningState) :
  has_credential env = true ->
  messages st = None ->
  is_empty (get (current_problem st) "") = false ->
  0 <= get (step_count st) 0 < 4 ->
  exists title prompt,
    nth_error (step_prompts (get (current_problem st) ""))
              (Z.to_nat (get (step_count st) 0)) = Some (title, prompt) /\
    forall response,
      llm [SystemMessage reasoner_system_prompt; HumanMessage prompt]
      = Content response ->
      run llm (step_by_step_reasoner env st)
      = ([[SystemMessage reasoner_system_prompt; HumanMessage prompt]],
         inl (KeyError "messages")).
Proof.
  intros Hcred Hnone Hproblem Hc.
  destruct (step_prompts_index (get (current_problem st) "") _ Hc)
    as (title & prompt & Hindex & Hnth).
  exists title, prompt. split; [exact Hnth|].
  intros response Hllm.
  rewrite (step_by_step_reasoner_eq env st Hcred Hproblem). cbv zeta.
  destruct (Z.ltb_spec (get (step_count st) 0) 4); [|lia].
  rewrite Hindex. cbn [bind invoke run]. rewrite Hllm, Hnone. reflexivity.
Qed.

(** X4: the reasoner does not reject a negative counter.  At -4, -3, -2 and
    -1 it sends the template counted from the end of the list (the first,
    second, third and fourth), writes a message labelled Step -3, Step -2,
    Step -1 and Step 0 with that template's title, and returns the counter
    plus one; from -2^63 to -5 it raises the IndexError of a list index out
    of range without sending a prompt. *)
Theorem reasoner_negative_counter (env : Env) (st : ReasoningState)
  (msgs : list Message) :
  has_credential env = true ->
  messages st = Some msgs ->
  is_empty (get (current_problem st) "") = false ->
  (forall (count : Z) (label title : string) (i : nat),
      In (count, label, title, i)
         [(-4, "-3", "Problem Analysis", 0%nat);
          (-3, "-2", "Information Gathering", 1%nat);
          (-2, "-1", "Option Generation", 2%nat);
          (-1, "0", "Evaluation & Decision", 3%nat)] ->
      get (step_count st) 0 = count ->
      forall response,
        llm [SystemMessage reasoner_system_prompt;
             HumanMessage (snd (nth i (step_prompts (get (current_problem st) ""))
                                        ("", "")))]
        = Content response ->
        run llm (step_by_step_reasoner env st)
        = ([[SystemMessage reasoner_system_prompt;
             HumanMessage (snd (nth i (step_prompts (get (current_problem st) ""))
                                        ("", "")))]],
           inr {| messages :=
                    Some (msgs ++ [AIMessage ("🔍 **Step " ++ label ++ ": " ++ title ++ "**

" ++ response)])%list;
                  current_problem := Some (get (current_problem st) "");
                  step_count := Some (count + 1) |})) /\
  (- 2 ^ 63 <= get (step_count st) 0 < -4 ->
   run llm (step_by_step_reasoner env st)
   = ([], inl (IndexError "list index out of range"))).
Proof.
  intros Hcred Hmsgs Hproblem. split.
  - intros count label title i Hin Hcount response Hllm.
    rewrite (step_by_step_reasoner_eq env st Hcred Hproblem). cbv zeta.
    rewrite Hcount.
    destruct Hin as [H | [H | [H | [H | []]]]]; injection H as <- <- <- <-.
    1: change (index (step_prompts (get (current_problem st) "")) (-4))
         with (Some ("Problem Analysis",
                     snd (nth 0 (step_prompts (get (current_problem st) "")) ("", "")))).
    2: change (index (step_prompts (get (current_problem st) "")) (-3))
         with (Some ("Information Gathering",
                     snd (nth 1 (step_prompts (get (current_problem st) "")) ("", "")))).
    3: change (index (step_prompts (get (current_problem st) "")) (-2))
         with (Some ("Option Generation",
                     snd (nth 2 (step_prompts (get (current_problem st) "")) ("", "")))).
    4: change (index (step_prompts (get (current_problem st) "")) (-1))
         with (Some ("Evaluation & Decision",
                     snd (nth 3 (step_prompts (get (current_problem st) "")) ("", "")))).
    all: change (_ <? 4) with true; cbv iota; cbn [bind invoke run];
      rewrite Hllm, Hmsgs; reflexivity.
  - intros Hc. now apply reasoner_index_error.
Qed.

(** X5: the reasoning nodes only append.  Whatever the coordinator, the
    reasoner or the synthesizer returns carries the input history followed by
    at most one new message, and that message is an assistant message. *)
Theorem reasoning_nodes_append_only (env : Env) (st r : ReasoningState)
  (msgs : list Message) :
  messages st = Some msgs ->
  snd (run llm (reasoning_coordinator st)) = inr r \/
  snd (run llm (step_by_step_reasoner env st)) = inr r \/
  snd (run llm (conclusion_synthesizer env st)) = inr r ->
  messages r = Some msgs \/
  exists text, messages r = Some (msgs ++ [AIMessage text])%list.
Proof.
  intros Hmsgs [H | [H | H]]; revert H.
  - unfold reasoning_coordinator. rewrite Hmsgs. cbn [getitem bind].
    destruct msgs as [|m msgs].
    + cbn [run snd]. intros [= <-]. right. now eexists.
    + destruct (last_item (m :: msgs)) as [[text|text|text|text]|];
        cbn [run snd]; intros [= <-];
        solve [now left | right; now eexists].
  - unfold step_by_step_reasoner.
    destruct (get_llm_cases env) as [-> | [e ->]]; cbn [bind run snd];
      [|discriminate].
    destruct (is_empty (get (current_problem st) "")).
    + rewrite Hmsgs. cbn [getitem bind run snd]. intros [= <-].
      right. now eexists.
    + destruct (_ <? _).
      * destruct (index _ _) as [[title prompt]|]; cbn [bind invoke run snd];
          [|discriminate].
        destruct (llm _) as [response|e]; cbn [bind run snd]; [|discriminate].
        rewrite Hmsgs. cbn [getitem bind run snd]. intros [= <-].
        right. now eexists.
      * cbn [run snd]. intros [= <-]. now left.
  - unfold conclusion_synthesizer.
    destruct (get_llm_cases env) as [-> | [e ->]]; cbn [bind run snd];
      [|discriminate].
    destruct (_ <? _)%nat.
    + rewrite Hmsgs. cbn [getitem bind run snd]. intros [= <-].
      right. now eexists.
    + cbn [bind invoke run snd].
      destruct (llm _) as [response|e]; cbn [bind run snd]; [|discriminate].
      rewrite Hmsgs. cbn [getitem bind run snd]. intros [= <-].
      right. now eexists.
Qed.

(** X6: the reasoner and the synthesizer never replace the problem
    statement: the update they return either has no problem key or carries
    the problem they read. *)
Theorem reasoning_nodes_keep_problem (env : Env) (st r : ReasoningState) :
  snd (run llm (step_by_step_reasoner env st)) = inr r \/
  snd (run llm (conclusion_synthesizer env st)) = inr r ->
  current_problem r = None \/
  current_problem r = current_problem st \/
  current_problem r = Some (get (current_problem st) "").
Proof.
  intros [H | H]; revert H.
  - unfold step_by_step_reasoner.
    destruct (get_llm_cases env) as [-> | [e ->]]; cbn [bind run snd];
      [|discriminate].
    destruct (is_empty (get (current_problem st) "")).
    + destruct (messages st); cbn [getitem bind run snd]; [|discriminate].
      intros [= <-]. now left.
    + destruct (_ <? _).
      * destruct (index _ _) as [[title prompt]|]; cbn [bind invoke run snd];
          [|discriminate].
        destruct (llm _) as [response|e]; cbn [bind run snd]; [|discriminate].
        destruct (messages st); cbn [getitem bind run snd]; [|discriminate].
        intros [= <-]. right. now right.
      * cbn [run snd]. intros [= <-]. right. now left.
  - unfold conclusion_synthesizer.
    destruct (get_llm_cases env) as [-> | [e ->]]; cbn [bind run snd];
      [|discriminate].
    destruct (_ <? _)%nat.
    + destruct (messages st); cbn [getitem bind run snd]; [|discriminate].
      intros [= <-]. now left.
    + cbn [bind invoke run snd].
      destruct (llm _) as [response|e]; cbn [bind run snd]; [|discriminate].
      destruct (messages st); cbn [getitem bind run snd]; [|discriminate].
      intros [= <-]. right. now right.
Qed.

End ReasoningEdges.

(** ** More facts about the string operations *)

Section MoreStringFacts.

Import Py.

Lemma prefix_nil (s : string) : prefix EmptyString s = true.
Proof. now destruct s. Qed.

Lemma prefix_cons (c d : ascii) (sub s : string) :
  prefix (String c sub) (String d s)
  = if ascii_dec c d then prefix sub s else false.
Proof. reflexivity. Qed.

Lemma map_chars_app (f : ascii -> ascii) (a b : string) :
  map_chars f (a ++ b) = map_chars f a ++ map_chars f b.
Proof. induction a as [|x a IH]; simpl; [reflexivity | now rewrite IH]. Qed.

Lemma contains_app_r (sub a b : string) :
  contains sub b = true -> contains sub (a ++ b) = true.
Proof.
  intros H. apply contains_spec in H as (x & y & ->).
  apply contains_spec. exists (a ++ x), y. now rewrite append_assoc.
Qed.

(** [contains (String c EmptyString) s = false] says that the character [c]
    does not occur in [s]. *)
Lemma absent_cons (c d : ascii) (s : string) :
  contains (String c EmptyString) (String d s) = false <-> c <> d /\ contains (String c EmptyString) s = false.
Proof.
  rewrite contains_eq, prefix_cons, prefix_nil.
  destruct (ascii_dec c d) as [->|n]; simpl; split.
  - discriminate.
  - now intros [H _].
  - now split.
  - now intros [_ H].
Qed.

(** A pattern never starts inside a text that lacks its first character. *)
Lemma contains_absent_first (c : ascii) (sub s : string) :
  contains (String c EmptyString) s = false -> contains (String c sub) s = false.
Proof.
  induction s as [|d s IH]; intros H; rewrite contains_eq.
  - reflexivity.
  - apply absent_cons in H as [Hcd Hs].
    rewrite prefix_cons. destruct (ascii_dec c d); [contradiction|].
    now apply IH.
Qed.

(** A pattern does not end on a character it does not have. *)
Lemma prefix_app_foreign (q : ascii) (sub a b : string) :
  contains (String q EmptyString) sub = false -> prefix sub (a ++ String q b) = prefix sub a.
Proof.
  revert a; induction sub as [|c sub IH]; intros a H.
  - now rewrite !prefix_nil.
  - apply absent_cons in H as [Hqc Hsub].
    destruct a as [|d a]; simpl.
    + destruct (ascii_dec c q); [now subst|reflexivity].
    + destruct (ascii_dec c d); [now apply IH|reflexivity].
Qed.

(** Appending a text that starts with a character foreign to the pattern and
    that lacks the first character of the pattern adds no occurrence. *)
Lemma contains_app_foreign (c q : ascii) (sub a b : string) :
  contains (String q EmptyString) (String c sub) = false ->
  contains (String c EmptyString) (String q b) = false ->
  contains (String c sub) (a ++ String q b) = contains (String c sub) a.
Proof.
  intros Hq Hc. induction a as [|d a IH].
  - simpl append. rewrite (contains_absent_first c sub _ Hc).
    reflexivity.
  - change (String d a ++ String q b) with (String d (a ++ String q b)).
    rewrite (contains_eq _ (String d (a ++ String q b))),
            (contains_eq _ (String d a)), IH.
    change (String d (a ++ String q b)) with (String d a ++ String q b).
    now rewrite (prefix_app_foreign q _ (String d a) b Hq).
Qed.

(** The first occurrence of a one-character separator. *)
Lemma partition_char (c : ascii) (a b : string) :
  contains (String c EmptyString) a = false ->
  partition (String c EmptyString) (a ++ String c b) = Some (a, b).
Proof.
  induction a as [|d a IH]; intros H; rewrite partition_eq.
  - simpl append. rewrite prefix_cons, prefix_nil.
    destruct (ascii_dec c c) as [_|n]; [reflexivity | now elim n].
  - apply absent_cons in H as [Hcd Ha].
    change (String d a ++ String c b) with (String d (a ++ String c b)).
    rewrite prefix_cons. destruct (ascii_dec c d); [contradiction|].
    now rewrite (IH Ha).
Qed.

End MoreStringFacts.

(** ** Step messages and their re-parsing *)

Section StepParsing.

Import Py ChainOfThought.
Local Open Scope Z_scope.

Variable llm : list Message -> Response.

Lemma extract_steps_app (a b : list Message) :
  extract_steps (a ++ b)%list = (extract_steps a ++ extract_steps b)%list.
Proof.
  induction a as [|m a IH]; simpl; [reflexivity|].
  destruct (step_text m); simpl; now rewrite IH.
Qed.

Lemma extract_steps_cons_length (m : Message) (l : list Message) :
  (List.length (extract_steps l) <= List.length (extract_steps (m :: l)))%nat.
Proof. cbn [extract_steps]. destruct (step_text m); cbn [List.length]; lia. Qed.

(** X7: what the reasoner writes, the synthesizer reads back.  The step
    message built for a counter from 0 to 3, its template title and any
    ASCII response is step-shaped, and its step text is the stripped
    response. *)
Theorem step_message_round_trip (problem title prompt response : string)
  (count : Z) :
  0 <= count < 4 ->
  isascii response = true ->
  nth_error (step_prompts problem) (Z.to_nat count) = Some (title, prompt) ->
  step_text (AIMessage (step_message count title response))
  = Some (strip response).
Proof.
  intros H _.
  assert (count = 0 \/ count = 1 \/ count = 2 \/ count = 3)
    as [-> | [-> | [-> | ->]]] by lia;
    intros [= <- _]; reflexivity.
Qed.

(** The word Step occurs in the announcement exactly when it occurs in the
    problem text: the template around it has no capital S after the word
    Starting. *)
Lemma announcement_contains_step (problem : string) :
  contains "Step" (reasoning_prompt problem) = contains "Step" problem.
Proof.
  change (contains "Step" (reasoning_prompt problem))
    with (contains "Step"
            ((problem ++ dq)
               ++ nl ++ nl ++ "Let me break this down systematically using a structured reasoning approach.")).
  rewrite append_assoc.
  now apply contains_app_foreign.
Qed.

(** X8: the coordinator's announcement is taken for a reasoning step exactly
    when the problem text contains the word Step (with a capital S); its step
    text is then the announcement after its title. *)
Theorem announcement_parsed_as_step (problem : string) :
  step_text (AIMessage (reasoning_prompt problem))
  = if contains "Step" problem
    then Some (strip (lines [
           ""; "";
           "I need to think through this problem step by step: " ++ dq ++ problem ++ dq;
           "";
           "Let me break this down systematically using a structured reasoning approach."]))
    else None.
Proof.
  unfold step_text. rewrite announcement_contains_step.
  destruct (contains "Step" problem); reflexivity.
Qed.

Lemma synthesis_prompt_first_four (problem : string) (steps later : list string) :
  (4 <= List.length steps)%nat ->
  synthesis_prompt problem (steps ++ later) = synthesis_prompt problem steps.
Proof.
  intros H. unfold synthesis_prompt.
  now rewrite !app_nth1 by lia.
Qed.

(** X9: the synthesizer reads the first four step texts of the whole history.
    Once a history holds four step texts (ASCII ones, as read here),
    messages appended to it change nothing in the prompt the synthesizer
    sends for the same problem: it is the prompt built from those four. *)
Theorem synthesizer_reads_first_four_steps (env : Env) (st : ReasoningState)
  (msgs later : list Message) :
  has_credential env = true ->
  messages st = Some (msgs ++ later)%list ->
  (4 <= List.length (extract_steps msgs))%nat ->
  (forall s, In s (firstn 4 (extract_steps msgs)) -> isascii s = true) ->
  fst (run llm (conclusion_synthesizer env st))
  = [[SystemMessage synthesizer_system_prompt;
      HumanMessage (synthesis_prompt (get (current_problem st) "")
                                     (extract_steps msgs))]].
Proof.
  intros Hcred Hmsgs Hsteps _. unfold conclusion_synthesizer.
  rewrite (get_llm_with_credential env Hcred). cbn [bind].
  rewrite Hmsgs. cbn [get]. rewrite extract_steps_app.
  destruct (Nat.ltb_spec (List.length (extract_steps msgs ++ extract_steps later)) 3)
    as [Hlt|_].
  - rewrite length_app in Hlt. lia.
  - rewrite (synthesis_prompt_first_four _ _ _ Hsteps).
    cbn [bind invoke run].
    now destruct (llm _) as [response|e].
Qed.

(** X10: a conclusion message is itself step-shaped: on a later turn it is
    counted among the reasoning steps, its step text being, for an ASCII
    response, the conclusion after its title. *)
Theorem conclusion_parsed_as_step (response : string) :
  isascii response = true ->
  step_text (AIMessage (conclusion response))
  = Some (strip (lines [
      ""; ""; response; ""; "---"; "";
      "**Reasoning Process Summary:**";
      "✅ **Step 1: Problem Analysis** - Identified core issues and key factors";
      "✅ **Step 2: Information Gathering** - Determined what information is needed";
      "✅ **Step 3: Option Generation** - Explored different approaches and solutions";
      "✅ **Step 4: Evaluation & Decision** - Analyzed pros/cons and made recommendations";
      "";
      "This systematic approach ensures thorough consideration of all aspects of your question."])).
Proof.
  intros _. unfold step_text.
  assert (Hstep : contains "Step" (conclusion response) = true).
  { change (conclusion response)
      with (("🎯 **Final Conclusion & Recommendation**" ++ nl ++ nl)
              ++ response
              ++ nl ++ lines [
                   ""; "---"; "";
                   "**Reasoning Process Summary:**";
                   "✅ **Step 1: Problem Analysis** - Identified core issues and key factors";
                   "✅ **Step 2: Information Gathering** - Determined what information is needed";
                   "✅ **Step 3: Option Generation** - Explored different approaches and solutions";
                   "✅ **Step 4: Evaluation & Decision** - Analyzed pros/cons and made recommendations";
                   "";
                   "This systematic approach ensures thorough consideration of all aspects of your question."]).
    apply contains_app_r, contains_app_r. reflexivity. }
  assert (Hcolon : contains ":" (conclusion response) = true).
  { change (conclusion response)
      with (("🎯 **Final Conclusion & Recommendation**" ++ nl ++ nl)
              ++ response
              ++ nl ++ lines [
                   ""; "---"; "";
                   "**Reasoning Process Summary:**";
                   "✅ **Step 1: Problem Analysis** - Identified core issues and key factors";
                   "✅ **Step 2: Information Gathering** - Determined what information is needed";
                   "✅ **Step 3: Option Generation** - Explored different approaches and solutions";
                   "✅ **Step 4: Evaluation & Decision** - Analyzed pros/cons and made recommendations";
                   "";
                   "This systematic approach ensures thorough consideration of all aspects of your question."]).
    apply contains_app_r, contains_app_r. reflexivity. }
  rewrite Hstep, Hcolon. reflexivity.
Qed.

End StepParsing.

(** ** Edge behaviour and text encodings of the supervisor *)

Section SupervisorEdges.

Import Py Agents.

Variable llm : list Message -> Response.

(** X11: the supervisor raises KeyError on a state without a messages key;
    and when it has to classify (no active specialist, or a keyword in the
    user text) without a credential, it raises ValueError and sends no
    prompt. *)
Theorem supervisor_faults (env : Env) (st : SupportState) :
  (messages st = None ->
   run llm (supervisor_node env st) = ([], inl (KeyError "messages"))) /\
  (forall (msgs : list Message) (text : string),
      has_credential env = false ->
      messages st = Some msgs ->
      last_item msgs = Some (HumanMessage text) ->
      current_active_agent msgs = None \/
      any_keyword billing_keywords (lower text)
      || any_keyword technical_keywords (lower text)
      || any_keyword general_keywords (lower text) = true ->
      run llm (supervisor_node env st)
      = ([], inl (ValueError "Please set OPENAI_API_KEY environment variable"))).
Proof.
  split.
  - intros Hnone. unfold supervisor_node. rewrite Hnone. reflexivity.
  - intros msgs text Hcred Hmsgs Hlast Hpath.
    rewrite (supervisor_node_on_user_message env st msgs text Hmsgs Hlast).
    rewrite (get_llm_without_credential env Hcred).
    destruct Hpath as [-> | ->]; [reflexivity|].
    now destruct (current_active_agent msgs).
Qed.

Lemma parse_choice_well_formed (label reason : string) :
  contains "|" label = false ->
  parse_choice (label ++ "|" ++ reason) = (strip label, strip reason).
Proof.
  intros H. unfold parse_choice. cbn [split].
  change (label ++ "|" ++ reason) with (label ++ String "|"%char reason).
  now rewrite (partition_char "|"%char label reason H).
Qed.

(** X12: an ASCII response of the form label|reason is taken at its word.
    Whatever stands before the first delimiter becomes, stripped, the active
    and the next agent, and [route_to_agent] answers it; it is not matched
    against the three specialists.  The reason is everything after that
    delimiter, stripped. *)
Theorem well_formed_response_sets_agent (env : Env) (st : SupportState)
  (msgs : list Message) (prompt : list Message) (label reason : string) :
  messages st = Some msgs ->
  fst (run llm (supervisor_node env st)) = [prompt] ->
  llm prompt = Content (label ++ "|" ++ reason) ->
  isascii label = true ->
  isascii reason = true ->
  contains "|" label = false ->
  snd (run llm (supervisor_node env st))
  = inr {| messages :=
             Some (msgs ++ [AIMessage (handoff_text (strip label) (strip reason))])%list;
           active_agent := Some (strip label);
           ticket_category := None;
           customer_id := None;
           next_agent := Some (strip label) |} /\
  forall update,
    snd (run llm (supervisor_node env st)) = inr update ->
    route_to_agent update = strip label.
Proof.
  intros Hmsgs Htrace Hllm _ _ Hlabel.
  rewrite (supervisor_call_is_classification llm env st msgs prompt _
             Hmsgs Htrace Hllm).
  unfold routing_decision. rewrite (parse_choice_well_formed _ _ Hlabel).
  split; [reflexivity|].
  now intros update [= <-].
Qed.

Lemma last_routing_skip (skipped rest : list Message) :
  (forall m, In m skipped ->
     is_ai m && contains "routing your request to our" (lower (content m)) = false) ->
  last_routing (skipped ++ rest)%list = last_routing rest.
Proof.
  induction skipped as [|m skipped IH]; intros H; [reflexivity|].
  cbn [app last_routing]. rewrite (H m (or_introl eq_refl)).
  apply IH. intros m' Hin. apply H. now right.
Qed.

Lemma removelast_snoc (l : list Message) (m : Message) :
  removelast (l ++ [m]) = l.
Proof. now rewrite removelast_app, app_nil_r. Qed.

(** The scan of the next turn stops at the latest announcement. *)
Lemma current_active_agent_after_handoff (msgs later : list Message)
  (label reason text : string) :
  (forall m, In m later ->
     is_ai m && contains "routing your request to our" (lower (content m)) = false) ->
  current_active_agent
    (msgs ++ [AIMessage (handoff_text label reason)] ++ later
          ++ [HumanMessage text])%list
  = last_routing (AIMessage (handoff_text label reason) :: rev msgs).
Proof.
  intros Hlater. unfold current_active_agent.
  rewrite !app_assoc, removelast_snoc, <- app_assoc.
  rewrite !rev_app_distr, <- app_assoc.
  rewrite last_routing_skip; [reflexivity|].
  intros m Hin. apply Hlater. now apply in_rev.
Qed.

(** X13: the handoff announcement is the state of the router.  On the next
    turn the supervisor finds the latest announcement behind any messages
    that are no announcements, and decodes it by looking for the three
    specialist names in its lower-cased text, technical first, then billing,
    then general.  A technical handoff is always decoded as technical; a
    billing or general handoff is decoded as itself unless its reason
    mentions a name tested before its own. *)
Theorem handoff_decoded_next_turn (msgs later : list Message)
  (reason text : string) :
  (forall m, In m later ->
     is_ai m && contains "routing your request to our" (lower (content m)) = false) ->
  current_active_agent
    (msgs ++ [AIMessage (handoff_text "technical_agent" reason)] ++ later
          ++ [HumanMessage text])%list
  = Some "technical_agent" /\
  current_active_agent
    (msgs ++ [AIMessage (handoff_text "billing_agent" reason)] ++ later
          ++ [HumanMessage text])%list
  = (if contains "technical agent" (lower reason) then Some "technical_agent"
     else Some "billing_agent") /\
  current_active_agent
    (msgs ++ [AIMessage (handoff_text "general_agent" reason)] ++ later
          ++ [HumanMessage text])%list
  = (if contains "technical agent" (lower reason) then Some "technical_agent"
     else if contains "billing agent" (lower reason) then Some "billing_agent"
     else Some "general_agent").
Proof.
  intros Hlater.
  rewrite !(current_active_agent_after_handoff msgs later _ reason text Hlater).
  split; [|split].
  - reflexivity.
  - cbn [last_routing].
    change (is_ai (AIMessage (handoff_text "billing_agent" reason))
            && contains "routing your request to our"
                 (lower (content (AIMessage (handoff_text "billing_agent" reason)))))
      with true.
    cbv iota. unfold announced_agent.
    change (contains "technical agent"
              (lower (content (AIMessage (handoff_text "billing_agent" reason)))))
      with (contains "technical agent" (lower reason)).
    now destruct (contains "technical agent" (lower reason)).
  - cbn [last_routing].
    change (is_ai (AIMessage (handoff_text "general_agent" reason))
            && contains "routing your request to our"
                 (lower (content (AIMessage (handoff_text "general_agent" reason)))))
      with true.
    cbv iota. unfold announced_agent.
    change (contains "technical agent"
              (lower (content (AIMessage (handoff_text "general_agent" reason)))))
      with (contains "technical agent" (lower reason)).
    change (contains "billing agent"
              (lower (content (AIMessage (handoff_text "general_agent" reason)))))
      with (contains "billing agent" (lower reason)).
    destruct (contains "technical agent" (lower reason)); [reflexivity|].
    now destruct (contains "billing agent" (lower reason)).
Qed.

(** X14: the routing prompt quotes at most the two messages before the
    latest one.  A history of one message or none gives no context; a
    history of two messages quotes the first; a longer history quotes the two
    messages before the latest, whatever stands before them.  A user message
    is quoted as a User line, an assistant message as an Assistant line, and
    a message of another kind adds nothing. *)
Theorem conversation_context_window (earlier : list Message)
  (m1 m2 latest : Message) :
  let quoted m :=
    match m with
    | HumanMessage text => "User: " ++ text ++ "
"
    | AIMessage text => "Assistant: " ++ text ++ "
"
    | _ => ""
    end in
  conversation_context [] = "" /\
  conversation_context [latest] = "" /\
  conversation_context [m1; latest]
  = "
Recent conversation context:
" ++ quoted m1 /\
  conversation_context (earlier ++ [m1; m2; latest])
  = "
Recent conversation context:
" ++ quoted m1 ++ quoted m2.
Proof.
  cbv zeta. split; [reflexivity|]. split; [reflexivity|]. split.
  - unfold conversation_context, last_n. cbn [List.length Nat.ltb Nat.leb Nat.sub skipn removelast context_lines].
    destruct m1; cbn [append]; now rewrite ?append_nil_r.
  - unfold conversation_context, last_n.
    rewrite length_app. cbn [List.length].
    destruct (Nat.ltb_spec 1 (List.length earlier + 3)) as [_|H]; [|lia].
    replace (List.length earlier + 3 - 3)%nat with (List.length earlier) by lia.
    rewrite skipn_app, skipn_all, Nat.sub_diag.
    cbn [skipn app removelast context_lines].
    destruct m1, m2; cbn [append]; now rewrite ?append_nil_r.
Qed.

(** X15: a keyword set matches a text exactly when one of its keywords is a
    substring of the text: the test is on substrings, not on words. *)
Theorem any_keyword_spec (keywords : list string) (user_content : string) :
  any_keyword keywords user_content = true <->
  exists keyword a b,
    In keyword keywords /\ user_content = a ++ keyword ++ b.
Proof.
  unfold any_keyword. rewrite existsb_exists. split.
  - intros (keyword & Hin & H). apply contains_spec in H as (a & b & ->).
    now exists keyword, a, b.
  - intros (keyword & a & b & Hin & ->). exists keyword. split; [exact Hin|].
    apply contains_spec. now exists a, b.
Qed.

Lemma last_item_snoc (l : list Message) (m : Message) :
  last_item (l ++ [m]) = Some m.
Proof.
  induction l as [|x l IH]; [reflexivity|].
  cbn [app last_item]. destruct (l ++ [m])%list eqn:E; [|exact IH].
  now destruct l.
Qed.





(** X16: two turns.  When the model answers the classification prompt with
    the technical label and an ASCII reason, the handoff is appended; on a
    later turn whose history is that one followed by messages that are no
    announcements and by an ASCII user message without keywords, the
    supervisor sends no prompt and stays with the technical agent, whatever
    the reason text was. *)
Theorem technical_handoff_sticks (env : Env) (st1 st2 : SupportState)
  (msgs later : list Message) (prompt : list Message) (reason text : string) :
  messages st1 = Some msgs ->
  fst (run llm (supervisor_node env st1)) = [prompt] ->
  llm prompt = Content ("technical_agent|" ++ reason) ->
  isascii reason = true ->
  (forall m, In m later ->
     is_ai m && contains "routing your request to our" (lower (content m)) = false) ->
  isascii text = true ->
  any_keyword billing_keywords (lower text)
  || any_keyword technical_keywords (lower text)
  || any_keyword general_keywords (lower text) = false ->
  forall update history,
    snd (run llm (supervisor_node env st1)) = inr update ->
    messages update = Some history ->
    messages st2 = Some (history ++ later ++ [HumanMessage text])%list ->
    run llm (supervisor_node env st2)
    = ([], inr {| messages := Some (history ++ later ++ [HumanMessage text])%list;
                  active_agent := Some "technical_agent";
                  ticket_category := None;
                  customer_id := None;
                  next_agent := Some "technical_agent" |}).
Proof.
  intros Hmsgs Htrace Hllm _ Hlater _ Hkey update history Hupdate Hhistory Hst2.
  rewrite (supervisor_call_is_classification llm env st1 msgs prompt _
             Hmsgs Htrace Hllm) in Hupdate.
  injection Hupdate as <-. unfold routing_decision in Hhistory.
  change (parse_choice _)
    with (parse_choice ("technical_agent" ++ "|" ++ reason)) in Hhistory.
  rewrite (parse_choice_well_formed "technical_agent" reason eq_refl) in Hhistory.
  cbn [messages] in Hhistory. injection Hhistory as <-.
  assert (Hlast : last_item
            ((msgs ++ [AIMessage (handoff_text (strip "technical_agent") (strip reason))])
               ++ later ++ [HumanMessage text])%list = Some (HumanMessage text)).
  { rewrite app_assoc. apply last_item_snoc. }
  rewrite (supervisor_node_on_user_message env st2 _ text Hst2 Hlast).
  rewrite Hkey. rewrite <- app_assoc.
  rewrite (current_active_agent_after_handoff msgs later _ _ text Hlater).
  reflexivity.
Qed.

End SupervisorEdges.

(** ** Runs of the reasoning graph *)

Section ReasoningRuns.

Import Py ChainOfThought ReasoningGraph.
Local Open Scope Z_scope.

(** While the problem statement is empty and the counter is below 4, the
    step reasoner is visited again and again. *)
Lemma graph_loops_without_problem (llm : list Message -> Response)
  (env : Env) (fuel : nat) :
  has_credential env = true ->
  forall (st : ReasoningState) (msgs : list Message),
    messages st = Some msgs ->
    is_empty (get (current_problem st) "") = true ->
    get (step_count st) 0 < 4 ->
    run llm (run_graph env fuel step_reasoner st) = ([], inr None).
Proof.
  intros Hcred. induction fuel as [|fuel IH]; intros st msgs Hmsgs Hproblem Hc.
  - reflexivity.
  - cbn [run_graph]. unfold step_by_step_reasoner.
    rewrite (get_llm_with_credential env Hcred). cbn [bind].
    rewrite Hproblem, Hmsgs. cbn [getitem bind].
    unfold route_reasoning_flow, apply_update.
    cbn [step_count merge_key get].
    destruct (Z.ltb_spec (get (step_count st) 0) 4); [|lia].
    cbn [conditional_edge String.eqb Ascii.eqb Bool.eqb].
    apply (IH _ (msgs ++ [AIMessage help_request])%list).
    + reflexivity.
    + cbn [current_problem merge_key]. exact Hproblem.
    + cbn [step_count get]. exact Hc.
Qed.

(** X17: the graph has no way out of an empty problem.  When the history is
    empty, or does not end with a user message, or ends with an empty user
    message, a run of the graph never reaches the conclusion or END, however
    many node visits it is given, and it never sends a prompt: the step
    reasoner is routed back to itself with its counter still below 4. *)
Theorem reasoning_graph_without_problem (llm : list Message -> Response)
  (env : Env) (fuel : nat) (msgs : list Message) :
  has_credential env = true ->
  (forall text, last_item msgs = Some (HumanMessage text) -> text = "") ->
  run llm (invoke_graph env fuel msgs) = ([], inr None).
Proof.
  intros Hcred Hlast. unfold invoke_graph.
  destruct fuel as [|fuel]; [reflexivity|].
  cbn [run_graph]. unfold reasoning_coordinator. cbn [messages getitem bind].
  destruct msgs as [|m msgs].
  - cbn [bind]. now apply (graph_loops_without_problem llm env fuel Hcred _ [AIMessage greeting]).
  - destruct (last_item (m :: msgs)) as [[text|text|text|text]|] eqn:E;
      cbn [bind];
      try (now apply (graph_loops_without_problem llm env fuel Hcred _ (m :: msgs))).
    rewrite (Hlast text eq_refl).
    now apply (graph_loops_without_problem llm env fuel Hcred _
                 ((m :: msgs) ++ [AIMessage (reasoning_prompt "")])%list).
Qed.

Variable answer : list Message -> string.

(** One visit of the step reasoner with a problem and a counter from 0 to 3:
    one prompt, one step message, and the route that the new counter
    commands. *)
Lemma graph_reasoner_visit (env : Env) (fuel : nat) (msgs : list Message)
  (text title prompt : string) (count : Z) :
  has_credential env = true ->
  is_empty text = false ->
  0 <= count < 4 ->
  nth_error (step_prompts text) (Z.to_nat count) = Some (title, prompt) ->
  run (responsive answer) (run_graph env (S fuel) step_reasoner
             {| messages := Some msgs;
                current_problem := Some text;
                step_count := Some count |})
  = let call := [SystemMessage reasoner_system_prompt; HumanMessage prompt] in
    let (trace, outcome) :=
      run (responsive answer) (run_graph env fuel
                 (if count <? 3 then step_reasoner else conclusion)
                 {| messages :=
                      Some (msgs ++ [AIMessage (step_message count title (answer call))])%list;
                    current_problem := Some text;
                    step_count := Some (count + 1) |}) in
    (call :: trace, outcome).
Proof.
  intros Hcred Hproblem Hc Hnth.
  cbn [run_graph]. unfold step_by_step_reasoner.
  rewrite (get_llm_with_credential env Hcred).
  cbn [bind get current_problem step_count]. rewrite Hproblem.
  assert (count = 0 \/ count = 1 \/ count = 2 \/ count = 3)
    as [-> | [-> | [-> | ->]]] by lia;
    injection Hnth as <- <-; reflexivity.
Qed.

(** The visit of the coordinator on a history that ends with a user
    message. *)
Lemma graph_coordinator_visit (env : Env) (fuel : nat) (msgs : list Message)
  (text : string) :
  last_item msgs = Some (HumanMessage text) ->
  run_graph env (S fuel) coordinator
    {| messages := Some msgs; current_problem := None; step_count := None |}
  = run_graph env fuel step_reasoner
      {| messages := Some (msgs ++ [AIMessage (reasoning_prompt text)])%list;
         current_problem := Some text;
         step_count := Some 0 |}.
Proof.
  intros Hlast. cbn [run_graph]. unfold reasoning_coordinator.
  cbn [messages getitem bind].
  destruct msgs as [|m msgs]; [discriminate|].
  rewrite Hlast. reflexivity.
Qed.

(** The visit of the conclusion node when three step texts or more are
    parsed, followed by END. *)
Lemma graph_conclusion_visit (env : Env) (fuel : nat) (msgs : list Message)
  (text : string) (count : Z) :
  has_credential env = true ->
  (3 <= List.length (extract_steps msgs))%nat ->
  run (responsive answer) (run_graph env (S (S fuel)) conclusion
             {| messages := Some msgs;
                current_problem := Some text;
                step_count := Some count |})
  = let call := [SystemMessage synthesizer_system_prompt;
                 HumanMessage (synthesis_prompt text (extract_steps msgs))] in
    ([call],
     inr (Some {| messages := Some (msgs ++ [AIMessage (ChainOfThought.conclusion (answer call))])%list;
                  current_problem := Some text;
                  step_count := Some count |})).
Proof.
  intros Hcred Hsteps.
  cbn [run_graph]. unfold conclusion_synthesizer.
  rewrite (get_llm_with_credential env Hcred).
  cbn [bind get current_problem step_count messages].
  destruct (Nat.ltb_spec (List.length (extract_steps msgs)) 3); [lia|].
  reflexivity.
Qed.

(** After the four visits of the step reasoner, four step texts at least
    are parsed from the history. *)
Lemma four_steps_recorded (msgs : list Message) (announcement : Message)
  (r1 r2 r3 r4 : string) :
  (3 <= List.length (extract_steps
          (msgs ++ [announcement;
                    AIMessage (step_message 0 "Problem Analysis" r1);
                    AIMessage (step_message 1 "Information Gathering" r2);
                    AIMessage (step_message 2 "Option Generation" r3);
                    AIMessage (step_message 3 "Evaluation & Decision" r4)])))%nat.
Proof.
  rewrite (extract_steps_app msgs), length_app.
  match goal with
  | |- context [extract_steps (?a :: ?l)] =>
      pose proof (extract_steps_cons_length a l) as Hle;
      change (List.length (extract_steps l)) with 4%nat in Hle
  end.
  lia.
Qed.

(** The six visits of a run on a non-empty user message, one after the
    other: the coordinator, the step reasoner at counters 0 to 3, the
    conclusion. *)
Ltac visit_all env fuel msgs text Hcred Hlast Hproblem :=
  unfold invoke_graph;
  change (7 + fuel)%nat with (S (S (S (S (S (S (S fuel)))))));
  rewrite (graph_coordinator_visit env _ msgs text Hlast);
  rewrite (graph_reasoner_visit env _ _ text "Problem Analysis"
             (snd (nth 0 (step_prompts text) ("", ""))) 0
             Hcred Hproblem ltac:(lia) eq_refl);
  cbv zeta; change (0 <? 3) with true; cbv iota;
  rewrite (graph_reasoner_visit env _ _ text "Information Gathering"
             (snd (nth 1 (step_prompts text) ("", ""))) 1
             Hcred Hproblem ltac:(lia) eq_refl);
  cbv zeta; change (1 <? 3) with true; cbv iota;
  rewrite (graph_reasoner_visit env _ _ text "Option Generation"
             (snd (nth 2 (step_prompts text) ("", ""))) 2
             Hcred Hproblem ltac:(lia) eq_refl);
  cbv zeta; change (2 <? 3) with true; cbv iota;
  rewrite (graph_reasoner_visit env _ _ text "Evaluation & Decision"
             (snd (nth 3 (step_prompts text) ("", ""))) 3
             Hcred Hproblem ltac:(lia) eq_refl);
  cbv zeta; change (3 <? 3) with false; cbv iota;
  change (0 + 1) with 1; change (1 + 1) with 2;
  change (2 + 1) with 3; change (3 + 1) with 4;
  rewrite <- !app_assoc; cbn [app];
  rewrite (graph_conclusion_visit env _ _ text 4 Hcred
             (four_steps_recorded msgs _ _ _ _ _));
  cbv zeta.

(** X18: a full run.  On a history that ends with a non-empty user message,
    and with a model that answers, the graph visits the coordinator, the step
    reasoner four times and the conclusion: it sends the four step prompts
    in order and then the synthesis prompt, and ends with the history
    extended by the announcement, the four step messages titled in order and
    the conclusion, the problem set to the user text and the counter at 4.
    The synthesizer never refuses in such a run.  The answers of the model
    and the first four step texts already in the history are ASCII. *)
Theorem reasoning_graph_full_run (env : Env) (fuel : nat)
  (msgs : list Message) (text : string) :
  has_credential env = true ->
  last_item msgs = Some (HumanMessage text) ->
  is_empty text = false ->
  (forall prompt, isascii (answer prompt) = true) ->
  (forall s, In s (firstn 4 (extract_steps msgs)) -> isascii s = true) ->
  let call i := [SystemMessage reasoner_system_prompt;
                 HumanMessage (snd (nth i (step_prompts text) ("", "")))] in
  let history :=
    (msgs ++ [AIMessage (reasoning_prompt text);
              AIMessage (step_message 0 "Problem Analysis" (answer (call 0%nat)));
              AIMessage (step_message 1 "Information Gathering" (answer (call 1%nat)));
              AIMessage (step_message 2 "Option Generation" (answer (call 2%nat)));
              AIMessage (step_message 3 "Evaluation & Decision" (answer (call 3%nat)))])%list in
  let synthesis := [SystemMessage synthesizer_system_prompt;
                    HumanMessage (synthesis_prompt text (extract_steps history))] in
  run (responsive answer) (invoke_graph env (7 + fuel) msgs)
  = ([call 0%nat; call 1%nat; call 2%nat; call 3%nat; synthesis],
     inr (Some {| messages :=
                    Some (history ++ [AIMessage (ChainOfThought.conclusion (answer synthesis))])%list;
                  current_problem := Some text;
                  step_count := Some 4 |})).
Proof.
  intros Hcred Hlast Hproblem _ _. cbv zeta.
  visit_all env fuel msgs text Hcred Hlast Hproblem.
  rewrite <- !app_assoc. reflexivity.
Qed.

(** X19: on a second turn the synthesizer works from the steps of the first.
    When the history handed to the graph already holds four step texts (a
    previous run is in it, as in the chat application, which passes the whole
    conversation), the run still sends its four step prompts for the new
    problem, but the synthesis prompt it sends fifth is built from the first
    four step texts of the old history (ASCII ones, as read here): the new
    steps do not enter it. *)
Theorem second_run_synthesizes_old_steps (env : Env) (fuel : nat)
  (msgs : list Message) (text : string) :
  has_credential env = true ->
  last_item msgs = Some (HumanMessage text) ->
  is_empty text = false ->
  (4 <= List.length (extract_steps msgs))%nat ->
  (forall s, In s (firstn 4 (extract_steps msgs)) -> isascii s = true) ->
  nth 4 (fst (run (responsive answer) (invoke_graph env (7 + fuel) msgs))) []
  = [SystemMessage synthesizer_system_prompt;
     HumanMessage (synthesis_prompt text (extract_steps msgs))].
Proof.
  intros Hcred Hlast Hproblem Hsteps _.
  visit_all env fuel msgs text Hcred Hlast Hproblem.
  cbn [fst nth]. rewrite extract_steps_app.
  now rewrite (synthesis_prompt_first_four text _ _ Hsteps).
Qed.

End ReasoningRuns.

(** ** The further theorems on sample inputs *)

Section FurtherWitnesses.

Import Py ChainOfThought.
Local Open Scope Z_scope.

Lemma reasoning_nodes_need_credential_witness :
  run (Samples.answering "ok")
      (step_by_step_reasoner Cases.env_without_key Samples.no_problem_yet)
  = ([], inl (ValueError "Please set OPENAI_API_KEY environment variable")) /\
  run (Samples.answering "ok")
      (conclusion_synthesizer Cases.env_without_key Samples.no_problem_yet)
  = ([], inl (ValueError "Please set OPENAI_API_KEY environment variable")).
Proof.
  exact (reasoning_nodes_need_credential (Samples.answering "ok")
           Cases.env_without_key Samples.no_problem_yet eq_refl).
Defined.

Lemma reasoning_nodes_without_messages_key_witness :
  run (Samples.answering "ok") (reasoning_coordinator Cases.without_messages)
  = ([], inl (KeyError "messages")) /\
  run (Samples.answering "ok")
      (conclusion_synthesizer Samples.env Cases.without_messages)
  = ([], inl (KeyError "messages")).
Proof.
  destruct (reasoning_nodes_without_messages_key (Samples.answering "ok")
              Samples.env Cases.without_messages eq_refl) as [Hc Hs].
  split; [exact Hc | exact (Hs eq_refl)].
Defined.

Lemma reasoner_invokes_before_reading_history_witness :
  exists prompt,
    run (Samples.answering "ok")
        (step_by_step_reasoner Samples.env Cases.without_messages)
    = ([[SystemMessage reasoner_system_prompt; HumanMessage prompt]],
       inl (KeyError "messages")).
Proof.
  destruct (reasoner_invokes_before_reading_history (Samples.answering "ok")
              Samples.env Cases.without_messages eq_refl eq_refl eq_refl)
    as (title & prompt & _ & Hrun); [cbn; lia|].
  exists prompt. apply (Hrun "ok"). reflexivity.
Defined.

Lemma reasoner_negative_counter_witness :
  run (Samples.answering "ok")
      (step_by_step_reasoner Samples.env Cases.counter_minus_one)
  = ([[SystemMessage reasoner_system_prompt;
       HumanMessage (snd (nth 3 (step_prompts "Which job offer should I take?")
                                ("", "")))]],
     inr {| messages :=
              Some [HumanMessage "Which job offer should I take?";
                    AIMessage "🔍 **Step 0: Evaluation & Decision**

ok"];
            current_problem := Some "Which job offer should I take?";
            step_count := Some 0 |}) /\
  run (Samples.answering "ok")
      (step_by_step_reasoner Samples.env Cases.counter_minus_five)
  = ([], inl (IndexError "list index out of range")).
Proof.
  split.
  - refine (proj1 (reasoner_negative_counter (Samples.answering "ok") Samples.env
                     Cases.counter_minus_one _ eq_refl eq_refl eq_refl)
              (-1) "0" "Evaluation & Decision" 3%nat _ eq_refl "ok" eq_refl).
    right. right. right. left. reflexivity.
  - apply (reasoner_negative_counter (Samples.answering "ok") Samples.env
             Cases.counter_minus_five _ eq_refl eq_refl eq_refl).
    cbn. lia.
Defined.

(** A step of the reasoner appends one assistant message. *)
Lemma reasoning_nodes_append_only_witness :
  let r := {| messages :=
                Some [HumanMessage "Which job offer should I take?";
                      AIMessage (step_message 2 "Option Generation" "ok")];
              current_problem := Some "Which job offer should I take?";
              step_count := Some 3 |} in
  snd (run (Samples.answering "ok")
           (step_by_step_reasoner Samples.env Samples.at_step_two)) = inr r /\
  exists text,
    messages r
    = Some ([HumanMessage "Which job offer should I take?"] ++ [AIMessage text])%list.
Proof.
  cbv zeta. split; [reflexivity|].
  destruct (reasoning_nodes_append_only (Samples.answering "ok") Samples.env
              Samples.at_step_two
              {| messages :=
                   Some [HumanMessage "Which job offer should I take?";
                         AIMessage (step_message 2 "Option Generation" "ok")];
                 current_problem := Some "Which job offer should I take?";
                 step_count := Some 3 |}
              _ eq_refl (or_intror (or_introl eq_refl))) as [H | H].
  - discriminate H.
  - exact H.
Defined.

Lemma reasoning_nodes_keep_problem_witness :
  let r := {| messages :=
                Some [HumanMessage "Which job offer should I take?";
                      AIMessage (step_message 2 "Option Generation" "ok")];
              current_problem := Some "Which job offer should I take?";
              step_count := Some 3 |} in
  current_problem r = None \/
  current_problem r = current_problem Samples.at_step_two \/
  current_problem r = Some (get (current_problem Samples.at_step_two) "").
Proof.
  exact (reasoning_nodes_keep_problem (Samples.answering "ok") Samples.env
           Samples.at_step_two _ (or_introl eq_refl)).
Defined.

Lemma step_message_round_trip_witness :
  step_text (AIMessage (step_message 2 "Option Generation"
                          ("  Stay, negotiate, or leave." ++ nl)))
  = Some "Stay, negotiate, or leave.".
Proof.
  exact (step_message_round_trip "Which job offer should I take?"
           "Option Generation" _ ("  Stay, negotiate, or leave." ++ nl) 2
           ltac:(lia) eq_refl eq_refl).
Defined.

Lemma conclusion_parsed_as_step_witness :
  step_text (AIMessage (conclusion "Take the second offer."))
  = Some ("Take the second offer.

---

**Reasoning Process Summary:**
✅ **Step 1: Problem Analysis** - Identified core issues and key factors
✅ **Step 2: Information Gathering** - Determined what information is needed
✅ **Step 3: Option Generation** - Explored different approaches and solutions
✅ **Step 4: Evaluation & Decision** - Analyzed pros/cons and made recommendations

This systematic approach ensures thorough consideration of all aspects of your question.").
Proof.
  exact (conclusion_parsed_as_step "Take the second offer." eq_refl).
Defined.

Lemma synthesizer_reads_first_four_steps_witness :
  fst (run (Samples.answering "ok")
           (conclusion_synthesizer Samples.env Cases.second_turn))
  = [[SystemMessage synthesizer_system_prompt;
      HumanMessage (synthesis_prompt "How do I learn a new language?"
                      ["first analysis"; "first facts"; "first options";
                       "first decision"])]].
Proof.
  refine (synthesizer_reads_first_four_steps (Samples.answering "ok") Samples.env
            Cases.second_turn
            (firstn 6 Cases.second_question) (skipn 6 Cases.second_question)
            eq_refl eq_refl ltac:(cbn; lia) _).
  intros s [<- | [<- | [<- | [<- | []]]]]; reflexivity.
Defined.

Lemma reasoning_graph_without_problem_witness :
  run (Samples.answering "ok")
      (ReasoningGraph.invoke_graph Samples.env 25 [HumanMessage ""])
  = ([], inr None) /\
  run (Samples.answering "ok") (ReasoningGraph.invoke_graph Samples.env 25 [])
  = ([], inr None).
Proof.
  split.
  - apply (reasoning_graph_without_problem (Samples.answering "ok") Samples.env
             25 [HumanMessage ""] eq_refl).
    now intros text [= <-].
  - apply (reasoning_graph_without_problem (Samples.answering "ok") Samples.env
             25 [] eq_refl).
    intros text H. discriminate H.
Defined.

Lemma reasoning_graph_full_run_witness :
  exists final,
    snd (run (ReasoningGraph.responsive (fun _ => "ok"))
             (ReasoningGraph.invoke_graph Samples.env 7
                [HumanMessage "Which job offer should I take?"]))
    = inr (Some final) /\
    step_count final = Some 4 /\
    current_problem final = Some "Which job offer should I take?" /\
    option_map (@List.length Message) (messages final) = Some 7%nat /\
    List.length
      (fst (run (ReasoningGraph.responsive (fun _ => "ok"))
                (ReasoningGraph.invoke_graph Samples.env 7
                   [HumanMessage "Which job offer should I take?"]))) = 5%nat.
Proof.
  pose proof (reasoning_graph_full_run (fun _ => "ok") Samples.env 0
                [HumanMessage "Which job offer should I take?"]
                "Which job offer should I take?" eq_refl eq_refl eq_refl
                (fun _ => eq_refl) (fun s (H : False) => match H with end)) as H.
  cbv zeta in H. change (7 + 0)%nat with 7%nat in H. rewrite H.
  eexists. repeat split.
Defined.

Lemma second_run_synthesizes_old_steps_witness :
  nth 4 (fst (run (ReasoningGraph.responsive (fun _ => "ok"))
                  (ReasoningGraph.invoke_graph Samples.env 7 Cases.second_question)))
        []
  = [SystemMessage synthesizer_system_prompt;
     HumanMessage (synthesis_prompt "How do I learn a new language?"
                     ["first analysis"; "first facts"; "first options";
                      "first decision"])].
Proof.
  refine (second_run_synthesizes_old_steps (fun _ => "ok") Samples.env 0
            Cases.second_question "How do I learn a new language?"
            eq_refl eq_refl eq_refl ltac:(cbn; lia) _).
  intros s [<- | [<- | [<- | [<- | []]]]]; reflexivity.
Defined.

End FurtherWitnesses.

Section SupervisorWitnesses.

Import Py Agents.

Lemma supervisor_faults_witness :
  run (Samples.answering "ok")
      (supervisor_node Cases.env_without_key Samples.first_turn)
  = ([], inl (ValueError "Please set OPENAI_API_KEY environment variable")).
Proof.
  exact (proj2 (supervisor_faults (Samples.answering "ok")
                  Cases.env_without_key Samples.first_turn)
           _ _ eq_refl eq_refl eq_refl (or_introl eq_refl)).
Defined.

(** A label outside the three specialists goes through. *)
Lemma well_formed_response_sets_agent_witness :
  snd (run (Samples.answering " sales_agent | wants a quote ")
           (supervisor_node Samples.env Samples.first_turn))
  = inr {| messages :=
             Some [HumanMessage "I was charged twice this month and need a refund";
                   AIMessage "I'm routing your request to our Sales Agent team. wants a quote"];
           active_agent := Some "sales_agent";
           ticket_category := None;
           customer_id := None;
           next_agent := Some "sales_agent" |}.
Proof.
  exact (proj1 (well_formed_response_sets_agent
                  (Samples.answering " sales_agent | wants a quote ")
                  Samples.env Samples.first_turn _ _ " sales_agent " " wants a quote "
                  eq_refl eq_refl eq_refl eq_refl eq_refl eq_refl)).
Defined.

(** A billing handoff whose reason names the technical agent is decoded as
    a technical one. *)
Lemma handoff_decoded_next_turn_witness :
  current_active_agent Cases.after_billing_handoff = Some "technical_agent".
Proof.
  refine (proj1 (proj2 (handoff_decoded_next_turn
            [HumanMessage "I was charged twice this month and need a refund"]
            [AIMessage "Your refund is on its way."]
            Cases.billing_reason "thanks" _))).
  intros m [<- | []]. reflexivity.
Defined.


Lemma technical_handoff_sticks_witness :
  run (Samples.answering "technical_agent|password reset")
      (supervisor_node Samples.env Cases.after_password_turn)
  = ([], inr {| messages := messages Cases.after_password_turn;
                active_agent := Some "technical_agent";
                ticket_category := None;
                customer_id := None;
                next_agent := Some "technical_agent" |}).
Proof.
  refine (technical_handoff_sticks
            (Samples.answering "technical_agent|password reset") Samples.env
            Cases.password_turn Cases.after_password_turn
            _ [AIMessage "A reset link is on its way."] _ "password reset" "thanks"
            eq_refl eq_refl eq_refl eq_refl _ eq_refl eq_refl _ _
            eq_refl eq_refl eq_refl).
  intros m [<- | []]. reflexivity.
Defined.

End SupervisorWitnesses.
